(** * Image analyser (src/App.js): retry helper, generation flow, clipboard copy

    A shallow embedding of the React component of [src/App.js].

    - JavaScript values are a small untyped universe [jsval]; property
      reads, optional chaining, truthiness and [||] follow the language.
    - A promise is modelled by how it ends: [Resolved], [Rejected] or
      [Pending] (never settled).  An asynchronous computation is a state
      transformer over a [World] returning such an ending; [await] is the
      bind of that monad, [try]/[catch]/[finally] are combinators.
    - Everything the component does to its surroundings is written to a
      chronological [timeline] (calls of the retried operation, timers,
      console output, React state setters, alerts); what lies outside the
      component (network, identity provider, clipboard) is the [outside]
      part of the world, driven by an explicit environment. *)

From Stdlib Require Import ZArith List String Ascii Bool Lia DecimalString.
From Equations Require Import Equations.
Import ListNotations.

Local Open Scope string_scope.
Local Open Scope Z_scope.

(* ===================================================================== *)
(** ** JavaScript values *)
(* ===================================================================== *)

Module Js.

(** Numbers are kept as integers: the statuses, counters and delays the
    component handles are integers, and doubling an integer delay is exact
    in a double as well.  An object is the list of its own properties in
    insertion order. *)
#[warnings="-register-all"]
Inductive jsval : Type :=
| VUndefined
| VNull
| VBool (b : bool)
| VNum (n : Z)
| VStr (s : string)
| VArr (items : list jsval)
| VObj (fields : list (string * jsval)).

(** A property key: a name ([x.name]) or an index ([x[0]]). *)
Inductive key : Type :=
| KName (name : string)
| KIndex (i : nat).

Definition string_of_Z (z : Z) : string :=
  NilZero.string_of_int (Z.to_int z).

(** The property name an index is converted to. *)
Definition key_name (k : key) : string :=
  match k with
  | KName s => s
  | KIndex i => string_of_Z (Z.of_nat i)
  end.

Fixpoint lookup (name : string) (fields : list (string * jsval)) : option jsval :=
  match fields with
  | [] => None
  | (n, v) :: rest => if String.eqb n name then Some v else lookup name rest
  end.

Definition or_undefined (o : option jsval) : jsval :=
  match o with
  | Some v => v
  | None => VUndefined
  end.

(** [js_get v k] is the property read [v.k] / [v[k]].  [None] stands for
    the TypeError thrown when [v] is [null] or [undefined].  On arrays and
    strings the only named property modelled is [length]; none of the names
    the component reads ([status], [candidates], [content], [parts],
    [text]) is a built-in member of a primitive wrapper, of [Array] or of
    [Object]. *)
Definition js_get (v : jsval) (k : key) : option jsval :=
  match v with
  | VUndefined | VNull => None
  | VBool _ | VNum _ => Some VUndefined
  | VStr s =>
      match k with
      | KIndex i =>
          Some (match String.get i s with
                | Some c => VStr (String c EmptyString)
                | None => VUndefined
                end)
      | KName name =>
          Some (if String.eqb name "length"
                then VNum (Z.of_nat (String.length s))
                else VUndefined)
      end
  | VArr items =>
      match k with
      | KIndex i => Some (nth i items VUndefined)
      | KName name =>
          Some (if String.eqb name "length"
                then VNum (Z.of_nat (List.length items))
                else VUndefined)
      end
  | VObj fields => Some (or_undefined (lookup (key_name k) fields))
  end.

(** Optional chaining [v?.k]: [undefined] instead of a TypeError. *)
Definition opt_get (v : jsval) (k : key) : jsval :=
  or_undefined (js_get v k).

(** ToBoolean. *)
Definition truthy (v : jsval) : bool :=
  match v with
  | VUndefined | VNull => false
  | VBool b => b
  | VNum n => negb (n =? 0)
  | VStr s => negb (String.eqb s "")
  | VArr _ | VObj _ => true
  end.

(** [a || b]. *)
Definition js_or (a b : jsval) : jsval :=
  if truthy a then a else b.

(** [v === n] for a number literal [n]. *)
Definition strict_eq_num (v : jsval) (n : Z) : bool :=
  match v with
  | VNum m => m =? n
  | _ => false
  end.

(** The conversion to a string that [String(v)], ['' + v] and a DOM
    string attribute apply: an array is its elements joined by commas,
    [null] and [undefined] elements giving nothing; an object is
    [[object Object]] (an object with a property of its own named
    [toString] is not covered: its conversion throws). *)
Fixpoint js_to_string (v : jsval) : string :=
  match v with
  | VUndefined => "undefined"
  | VNull => "null"
  | VBool true => "true"
  | VBool false => "false"
  | VNum n => string_of_Z n
  | VStr s => s
  | VArr items =>
      (fix join (l : list jsval) : string :=
         match l with
         | [] => ""
         | x :: rest =>
             let piece := match x with
                          | VUndefined | VNull => ""
                          | _ => js_to_string x
                          end in
             match rest with
             | [] => piece
             | _ :: _ => piece ++ "," ++ join rest
             end
         end) items
  | VObj _ => "[object Object]"
  end.

(** [new Error(message)] and its subclasses, as far as property reads see
    them. *)
Definition js_error (name message : string) : jsval :=
  VObj [("name", VStr name); ("message", VStr message)].

End Js.
Import Js.

(* ===================================================================== *)
(** ** Promises and the world *)
(* ===================================================================== *)

(** How a promise ends. *)
Inductive Settled (A : Type) : Type :=
| Resolved (v : A)
| Rejected (reason : jsval)
| Pending.
Arguments Resolved {A} v.
Arguments Rejected {A} reason.
Arguments Pending {A}.

(** What the component does, in the order it does it. *)
Inductive Event : Type :=
| Invoked                                   (* the retried operation was called *)
| Timeout (ms : Z)                          (* await of setTimeout(res, ms) *)
| ConsoleLog (msg : string)
| ConsoleError (label : string) (e : jsval)
| SetLoading (b : bool)
| SetError (msg : string)
| SetPrompt (v : jsval)
| Alert (msg : string).

(** The [useState] cells of the component. *)
Record UI : Type := mkUI {
  image : jsval;
  prompt : jsval;
  loading : bool;
  error : string
}.

(** [useState(null)], [useState('')], [useState(false)], [useState('')]. *)
Definition initial_ui : UI :=
  {| image := VNull; prompt := VStr ""; loading := false; error := "" |}.

Record World (X : Type) : Type := mkWorld {
  outside : X;
  timeline : list Event;
  ui : UI
}.
Arguments mkWorld {X} _ _ _.
Arguments outside {X} _.
Arguments timeline {X} _.
Arguments ui {X} _.

Definition Async (X A : Type) : Type := World X -> Settled A * World X.

(** An operation of the outside world: it only sees and changes [X]. *)
Definition Op (X A : Type) : Type := X -> Settled A * X.

Section Monad.
Context {X : Type}.

Definition ret {A} (a : A) : Async X A := fun w => (Resolved a, w).

Definition throw {A} (e : jsval) : Async X A := fun w => (Rejected e, w).

(** [await m; f]: a rejection skips the rest, a promise that never
    settles stops the flow for good. *)
Definition bind {A B} (m : Async X A) (f : A -> Async X B) : Async X B :=
  fun w =>
    match m w with
    | (Resolved a, w1) => f a w1
    | (Rejected e, w1) => (Rejected e, w1)
    | (Pending, w1) => (Pending, w1)
    end.

(** [try { m } catch (e) { h e }]. *)
Definition try_catch {A} (m : Async X A) (h : jsval -> Async X A) : Async X A :=
  fun w =>
    match m w with
    | (Rejected e, w1) => h e w1
    | other => other
    end.

(** [try { m } finally { fin }] for a [fin] that is a plain state change. *)
Definition finally {A} (m : Async X A) (fin : World X -> World X) : Async X A :=
  fun w =>
    match m w with
    | (Pending, w1) => (Pending, w1)
    | (r, w1) => (r, fin w1)
    end.

Definition emit (e : Event) (w : World X) : World X :=
  mkWorld (outside w) (timeline w ++ [e]) (ui w).

(** A plain state change as a computation. *)
Definition step (f : World X -> World X) : Async X unit :=
  fun w => (Resolved tt, f w).

(** Running an operation of the outside world and awaiting it. *)
Definition perform {A} (op : Op X A) : Async X A :=
  fun w =>
    let (r, x) := op (outside w) in
    (r, mkWorld x (timeline w) (ui w)).

(** [fn()] inside the retry helper: the call is noted on the timeline. *)
Definition call {A} (fn : Op X A) : Async X A :=
  fun w => perform fn (emit Invoked w).

(** [await new Promise(res => setTimeout(res, ms))]. *)
Definition setTimeout (ms : Z) (w : World X) : World X :=
  emit (Timeout ms) w.

Definition console_log (msg : string) (w : World X) : World X :=
  emit (ConsoleLog msg) w.

Definition console_error (label : string) (e : jsval) (w : World X) : World X :=
  emit (ConsoleError label e) w.

End Monad.

Declare Scope async_scope.
Delimit Scope async_scope with async.
Notation "x <- m ;; k" := (bind m (fun x => k))
  (at level 61, m at next level, right associativity) : async_scope.
Notation "m ;;; k" := (bind m (fun _ => k))
  (at level 61, right associativity) : async_scope.

(* ===================================================================== *)
(** ** The retry helper (App.js, lines 64-78) *)
(* ===================================================================== *)

Definition default_retries : Z := 5.
Definition default_delay : Z := 1000.

(** [err.status === 429]; [None] when reading [err.status] throws. *)
Definition status_is_429 (err : jsval) : option bool :=
  match js_get err (KName "status") with
  | Some s => Some (strict_eq_num s 429)
  | None => None
  end.

Definition retry_message (retries : Z) : string :=
  "Reintentando llamada a la API... " ++ string_of_Z retries
    ++ " reintentos restantes.".

Section Backoff.
  Context {X A : Type}.

(** [backoff(fn, retries, delay)].  The handler of [.catch] is an async
    function whose own promise nobody observes: when reading [err.status]
    throws inside it, neither [resolve] nor [reject] of the promise handed
    out by [backoff] is ever called, and that promise stays pending. *)
Equations? backoff (fn : Op X A) (retries delay : Z) (w : World X)
  : Settled A * World X by wf (Z.to_nat retries) lt :=
backoff fn retries delay w with call fn w := {
  | (Resolved v, w1) := (Resolved v, w1);
  | (Pending, w1) := (Pending, w1);
  | (Rejected err, w1) with Z_gt_dec retries 0 := {
    | right _ := (Rejected err, w1);
    | left _ with status_is_429 err := {
      | None := (Pending, w1);
      | Some false := (Rejected err, w1);
      | Some true :=
          backoff fn (retries - 1) (delay * 2)
            (console_log (retry_message retries) (setTimeout delay w1)) } } }.
Proof. lia. Qed.

End Backoff.

(* ===================================================================== *)
(** ** The surroundings of the component *)
(* ===================================================================== *)

(** A request as [fetch] receives it.  The body is kept as the value that
    [JSON.stringify] serialises. *)
Record Request : Type := mkRequest {
  req_url : string;
  req_method : string;
  req_headers : list (string * string);
  req_body : jsval
}.

(** What the endpoint does with a request: the connection fails, or an
    HTTP response comes back.  [body] is the response text parsed as JSON,
    [None] when it is not JSON. *)
Inductive Reply : Type :=
| NetworkError
| Http (status : Z) (statusText : string) (body : option jsval).

(** The [Response] object a resolved [fetch] hands over. *)
Record Response : Type := mkResponse {
  status : Z;
  ok : bool;
  statusText : string;
  parsed_body : option jsval
}.

(** The environment: the identity provider's answer to the n-th sign-in
    ([None]: signed in, [Some e]: rejected with [e]) and the endpoint's
    reply to the n-th request. *)
Record Env : Type := mkEnv {
  signIn_outcome : nat -> option jsval;
  endpoint : nat -> Request -> Reply
}.

(** What the outside has seen so far. *)
Record Net : Type := mkNet {
  signIns : nat;
  requests : list Request
}.

(** [signInAnonymously(auth)]. *)
Definition signInAnonymously (env : Env) : Op Net unit :=
  fun net =>
    let net' := mkNet (S (signIns net)) (requests net) in
    match signIn_outcome env (signIns net) with
    | None => (Resolved tt, net')
    | Some e => (Rejected e, net')
    end.

(** [fetch(url, {method, headers, body})].  The promise of [fetch] is
    rejected (with a TypeError) only when no response arrives; any HTTP
    response resolves it, and [ok] tells whether the status is in
    200..299. *)
Definition fetch (env : Env) (url method : string)
    (headers : list (string * string)) (body : jsval) : Op Net Response :=
  fun net =>
    let rq := mkRequest url method headers body in
    let net' := mkNet (signIns net) (requests net ++ [rq]) in
    match endpoint env (List.length (requests net)) rq with
    | NetworkError => (Rejected (js_error "TypeError" "Failed to fetch"), net')
    | Http st txt b =>
        (Resolved (mkResponse st ((200 <=? st) && (st <=? 299)) txt b), net')
    end.

(** [response.json()]. *)
Definition response_json {X : Type} (r : Response) : Async X jsval :=
  match parsed_body r with
  | Some v => ret v
  | None => throw (js_error "SyntaxError" "Unexpected end of JSON input")
  end.

(* ===================================================================== *)
(** ** The component (App.js, lines 26-158) *)
(* ===================================================================== *)

Section Setters.
Context {X : Type}.

Definition setLoading (b : bool) (w : World X) : World X :=
  mkWorld (outside w) (timeline w ++ [SetLoading b])
    (mkUI (image (ui w)) (prompt (ui w)) b (error (ui w))).

Definition setError (msg : string) (w : World X) : World X :=
  mkWorld (outside w) (timeline w ++ [SetError msg])
    (mkUI (image (ui w)) (prompt (ui w)) (loading (ui w)) msg).

Definition setPrompt (v : jsval) (w : World X) : World X :=
  mkWorld (outside w) (timeline w ++ [SetPrompt v])
    (mkUI (image (ui w)) v (loading (ui w)) (error (ui w))).

Definition alert (msg : string) (w : World X) : World X :=
  emit (Alert msg) w.

End Setters.

Definition apiKey : string := "".

Definition apiUrl : string :=
  "https://generativelanguage.googleapis.com/v1beta/models/gemini-2.5-flash-preview-05-20:generateContent?key="
    ++ apiKey.

Definition instruction : string :=
  "Analyze this image. Generate a detailed, hyperrealistic image generation prompt in English. The prompt should meticulously describe the camera settings (e.g., camera model, lens, aperture, shutter speed, ISO), the lighting conditions (e.g., natural light, studio, time of day), the color grading and color palette, and the compositional elements (e.g., rule of thirds, leading lines, framing). The prompt should be ready to use for an AI image generator and be highly descriptive to achieve a photorealistic result.".

Definition auth_error_message : string :=
  "Error de autenticación. Por favor, inténtelo de nuevo.".

Definition generic_error_message : string :=
  "Ocurrió un error al analizar la imagen. Inténtelo de nuevo.".

Definition fallback_prompt : string :=
  "No se pudo generar el prompt. Por favor, inténtelo de nuevo.".

(** The [payload] literal (lines 82-99). *)
Definition payload (base64ImageData : string) : jsval :=
  VObj [("contents",
         VArr [VObj [("role", VStr "user");
                     ("parts",
                      VArr [VObj [("text", VStr instruction)];
                            VObj [("inlineData",
                                   VObj [("mimeType", VStr "image/png");
                                         ("data", VStr base64ImageData)])]])]])].

(** [result?.candidates?.[0]?.content?.parts?.[0]?.text]. *)
Definition extract_text (result : jsval) : jsval :=
  opt_get
    (opt_get
       (opt_get
          (opt_get
             (opt_get (opt_get result (KName "candidates")) (KIndex 0))
             (KName "content"))
          (KName "parts"))
       (KIndex 0))
    (KName "text").

(** The operation handed to [backoff] (lines 102-108). *)
Definition generation_request (env : Env) (base64ImageData : string) : Op Net Response :=
  fetch env apiUrl "POST" [("Content-Type", "application/json")]
    (payload base64ImageData).

Local Open Scope async_scope.

(** The body of the second [try] (lines 102-116). *)
Definition generate (env : Env) (base64ImageData : string) : Async Net unit :=
  response <- backoff (generation_request env base64ImageData)
                default_retries default_delay ;;
  if negb (ok response)
  then throw (js_error "Error"
                ("API error: " ++ string_of_Z (status response) ++ " "
                   ++ statusText response))
  else
    result <- response_json response ;;
    step (setPrompt (js_or (extract_text result) (VStr fallback_prompt))).

(** [analyzeImage(base64ImageData)] (lines 50-124).  The [return] of the
    first [catch] is the [false] that skips the rest. *)
Definition analyzeImage (env : Env) (base64ImageData : string) : Async Net unit :=
  step (setLoading true) ;;;
  step (setError "") ;;;
  signed <- try_catch
              (perform (signInAnonymously env) ;;; ret true)
              (fun e =>
                 step (console_error "Authentication failed:" e) ;;;
                 step (setError auth_error_message) ;;;
                 step (setLoading false) ;;;
                 ret false) ;;
  if signed : bool
  then finally
         (try_catch
            (generate env base64ImageData)
            (fun e =>
               step (console_error "Error al analizar la imagen:" e) ;;;
               step (setError generic_error_message)))
         (setLoading false)
  else ret tt.

(** What the JSX shows (lines 182-205): the spinner, the error box and the
    prompt area with its copy button. *)
Record View : Type := mkView {
  spinner : bool;
  error_box : option string;
  prompt_box : option jsval
}.

Definition render (u : UI) : View :=
  {| spinner := loading u;
     error_box := if truthy (VStr (error u)) then Some (error u) else None;
     prompt_box := if negb (loading u) && truthy (prompt u)
                   then Some (prompt u) else None |}.

(** The text the user reads in the prompt area: the textarea shows its
    [value] prop as a string. *)
Definition prompt_text (u : UI) : option string :=
  match prompt_box (render u) with
  | Some v => Some (js_to_string v)
  | None => None
  end.

(* ===================================================================== *)
(** ** Clipboard copy (App.js, lines 129-158) *)
(* ===================================================================== *)

Inductive ExecOutcome : Type :=
| ExecReturns (copied : bool)
| ExecThrows (e : jsval).

(** The browser as the copy handler meets it. *)
Record Browser : Type := mkBrowser {
  has_writeText : bool;                 (* navigator.clipboard && navigator.clipboard.writeText *)
  writeText_outcome : option jsval;     (* None: resolved, Some e: rejected with e *)
  execCommand_outcome : ExecOutcome     (* document.execCommand('copy') *)
}.

(** The text on the system clipboard and the values of the textareas
    appended to the document body. *)
Record Board : Type := mkBoard {
  clipboard : option string;
  textareas : list string
}.

Definition copy_success_message : string := "Prompt copiado al portapapeles!".
Definition copy_failure_message : string :=
  "Error al copiar el prompt. Inténtelo de nuevo.".

(** [navigator.clipboard.writeText(text)]: the argument is taken as a
    string. *)
Definition writeText (b : Browser) (text : jsval) : Op Board unit :=
  fun board =>
    match writeText_outcome b with
    | None => (Resolved tt, mkBoard (Some (js_to_string text)) (textareas board))
    | Some e => (Rejected e, board)
    end.

(** [document.execCommand('copy')] with the last appended textarea
    selected. *)
Definition execCommand_copy (b : Browser) : Op Board unit :=
  fun board =>
    match execCommand_outcome b with
    | ExecReturns true =>
        (Resolved tt, mkBoard (Some (last (textareas board) ""))
                        (textareas board))
    | ExecReturns false => (Resolved tt, board)
    | ExecThrows e => (Rejected e, board)
    end.

(** [textarea.value = text]: the value kept is a string, the empty one
    for [null]. *)
Definition textarea_value (text : jsval) : string :=
  match text with
  | VNull => ""
  | _ => js_to_string text
  end.

(** The textarea created, given its value and appended to the body. *)
Definition appendChild (text : jsval) (w : World Board) : World Board :=
  mkWorld (mkBoard (clipboard (outside w))
             (textareas (outside w) ++ [textarea_value text]))
    (timeline w) (ui w).

Definition removeChild (w : World Board) : World Board :=
  mkWorld (mkBoard (clipboard (outside w)) (removelast (textareas (outside w))))
    (timeline w) (ui w).

Definition copyToClipboardFallback (b : Browser) (text : jsval) : Async Board unit :=
  step (appendChild text) ;;;
  try_catch
    (perform (execCommand_copy b) ;;;
     step (alert copy_success_message))
    (fun err =>
       step (console_error "Fallback: Error al copiar:" err) ;;;
       step (alert copy_failure_message)) ;;;
  step removeChild.

Definition copyPromptToClipboard (b : Browser) : Async Board unit :=
  fun w =>
    let text := prompt (ui w) in
    (if has_writeText b
     then try_catch
            (perform (writeText b text) ;;;
             step (alert copy_success_message))
            (fun err =>
               step (console_error "Error al usar navigator.clipboard:" err) ;;;
               copyToClipboardFallback b text)
     else copyToClipboardFallback b text) w.

Local Close Scope async_scope.

(* ===================================================================== *)
(** ** Reading a timeline *)
(* ===================================================================== *)

(** Number of calls of the retried operation. *)
Definition attempts (tl : list Event) : nat :=
  List.length (filter (fun e => match e with Invoked => true | _ => false end) tl).

(** The timer delays, in order. *)
Definition waits (tl : list Event) : list Z :=
  flat_map (fun e => match e with Timeout ms => [ms] | _ => [] end) tl.

Definition console_errors (tl : list Event) : list (string * jsval) :=
  flat_map (fun e => match e with ConsoleError l v => [(l, v)] | _ => [] end) tl.

Definition alerts (tl : list Event) : list string :=
  flat_map (fun e => match e with Alert msg => [msg] | _ => [] end) tl.

(** A user-facing outcome: a prompt, or a non-empty error message (the
    [setError('')] that opens the flow clears the message). *)
Definition is_outcome (e : Event) : bool :=
  match e with
  | SetPrompt _ => true
  | SetError msg => negb (String.eqb msg "")
  | _ => false
  end.

Definition outcomes (tl : list Event) : list Event := filter is_outcome tl.

(** The timeline of k retries, as the specification words it: call, and
    before each further call a wait that doubles, starting at [delay]. *)
Fixpoint retry_schedule (k : nat) (retries delay : Z) : list Event :=
  match k with
  | O => [Invoked]
  | S k' =>
      Invoked :: Timeout delay :: ConsoleLog (retry_message retries)
        :: retry_schedule k' (retries - 1) (delay * 2)
  end.

(** The doubling sequence [delay; 2 delay; 4 delay; ...] of k terms. *)
Definition doubling (delay : Z) (k : nat) : list Z :=
  map (fun i => delay * 2 ^ Z.of_nat i) (seq 0 k).

Definition total (l : list Z) : Z := fold_right Z.add 0 l.

(** The operation is rejected with a 429 status k times in a row from
    state [x], then resolved with [v], leaving state [x']. *)
Inductive fails_429_then_resolves {X A : Type} (fn : Op X A)
  : nat -> X -> A -> X -> Prop :=
| resolves_now x v x' :
    fn x = (Resolved v, x') ->
    fails_429_then_resolves fn 0 x v x'
| fails_first k x e x1 v x' :
    fn x = (Rejected e, x1) ->
    status_is_429 e = Some true ->
    fails_429_then_resolves fn k x1 v x' ->
    fails_429_then_resolves fn (S k) x v x'.

(** The operation is rejected with a 429 status whatever its state. *)
Definition always_fails_429 {X A : Type} (fn : Op X A) : Prop :=
  forall x, exists e x', fn x = (Rejected e, x') /\ status_is_429 e = Some true.

(** The state of the outside after n calls of the operation. *)
Fixpoint after_calls {X A : Type} (fn : Op X A) (n : nat) (x : X) : X :=
  match n with
  | O => x
  | S n' => after_calls fn n' (snd (fn x))
  end.

(* ===================================================================== *)
(** ** Paths in a JSON value *)
(* ===================================================================== *)

(** A member of a JSON value: a property of an object, an element of an
    array. *)
Definition json_member (v : jsval) (k : key) : option jsval :=
  match v with
  | VObj fields => lookup (key_name k) fields
  | VArr items =>
      match k with
      | KIndex i => nth_error items i
      | KName _ => None
      end
  | _ => None
  end.

(** The value at a path, [None] when some step of the path is absent. *)
Fixpoint json_path (v : jsval) (path : list key) : option jsval :=
  match path with
  | [] => Some v
  | k :: rest =>
      match json_member v k with
      | Some v' => json_path v' rest
      | None => None
      end
  end.

(** [candidates[0].content.parts[0].text]. *)
Definition text_path : list key :=
  [KName "candidates"; KIndex 0; KName "content"; KName "parts"; KIndex 0;
   KName "text"].

(** Names other than [length], and every index followed by such a name:
    the paths on which a failed step can only lead to [undefined]. *)
Fixpoint plain_path (path : list key) : Prop :=
  match path with
  | [] => True
  | KName n :: rest => String.eqb n "length" = false /\ plain_path rest
  | KIndex _ :: rest =>
      match rest with
      | KName _ :: _ => plain_path rest
      | _ => False
      end
  end.

(* ===================================================================== *)
(** ** Scenarios and the shapes of a run *)
(* ===================================================================== *)

(** An operation on a call counter: rejected with status 429 on its first
    two calls, resolved afterwards. *)
Definition flaky_twice : Op nat string :=
  fun n =>
    if (n <? 2)%nat
    then (Rejected (VObj [("status", VNum 429)]), S n)
    else (Resolved "ok", S n).

(** An operation on a call counter that is always rejected with status
    429; the error carries the number of the call. *)
Definition always_limited : Op nat string :=
  fun n => (Rejected (VObj [("status", VNum 429); ("call", VNum (Z.of_nat n))]), S n).

(** An operation that is always rejected with status 500. *)
Definition always_broken : Op nat string :=
  fun n => (Rejected (VObj [("status", VNum 500)]), S n).

(** The request of [analyzeImage]. *)
Definition the_request (base64ImageData : string) : Request :=
  mkRequest apiUrl "POST" [("Content-Type", "application/json")]
    (payload base64ImageData).

(** The endpoint's reply to the next request. *)
Definition next_reply (env : Env) (base64ImageData : string) (w : World Net) : Reply :=
  endpoint env (List.length (requests (outside w))) (the_request base64ImageData).

Definition api_error (st : Z) (txt : string) : jsval :=
  js_error "Error" ("API error: " ++ string_of_Z st ++ " " ++ txt).

(** The world after a run: the outside, the events added, the prompt and
    the error message; the spinner is off. *)
Definition finished (w : World Net) (net : Net) (evs : list Event)
    (p : jsval) (msg : string) : World Net :=
  mkWorld net (timeline w ++ evs) (mkUI (image (ui w)) p false msg).

Definition signed_in (w : World Net) : Net :=
  mkNet (S (signIns (outside w))) (requests (outside w)).

Definition requested (base64ImageData : string) (w : World Net) : Net :=
  mkNet (S (signIns (outside w)))
    (requests (outside w) ++ [the_request base64ImageData]).

Definition failure_events (e : jsval) : list Event :=
  [SetLoading true; SetError ""; Invoked;
   ConsoleError "Error al analizar la imagen:" e;
   SetError generic_error_message; SetLoading false].

Definition success_events (p : jsval) : list Event :=
  [SetLoading true; SetError ""; Invoked; SetPrompt p; SetLoading false].

Definition auth_failure_events (e : jsval) : list Event :=
  [SetLoading true; SetError ""; ConsoleError "Authentication failed:" e;
   SetError auth_error_message; SetLoading false].

(** The response of the specification's first scenario, with [t] as its
    text. *)
Definition response_with_text (t : jsval) : jsval :=
  VObj [("candidates",
         VArr [VObj [("content",
                      VObj [("parts", VArr [VObj [("text", t)]])])]])].

(** The runs of [analyzeImage] from [w]: the outside it leaves, the events
    it adds, the prompt and the error message it ends with. *)
Inductive Run (env : Env) (b : string) (w : World Net)
  : Net -> list Event -> jsval -> string -> Prop :=
| run_auth_failed e :
    signIn_outcome env (signIns (outside w)) = Some e ->
    Run env b w (signed_in w) (auth_failure_events e) (prompt (ui w))
      auth_error_message
| run_failed e :
    signIn_outcome env (signIns (outside w)) = None ->
    Run env b w (requested b w) (failure_events e) (prompt (ui w))
      generic_error_message
| run_succeeded st txt result :
    signIn_outcome env (signIns (outside w)) = None ->
    next_reply env b w = Http st txt (Some result) ->
    (200 <=? st) && (st <=? 299) = true ->
    Run env b w (requested b w)
      (success_events (js_or (extract_text result) (VStr fallback_prompt)))
      (js_or (extract_text result) (VStr fallback_prompt)) "".

(** The environment in which sign-in works and the endpoint answers every
    request with [reply]. *)
Definition answering (reply : Reply) : Env :=
  mkEnv (fun _ => None) (fun _ _ => reply).

(** The environment in which sign-in is rejected with [e]. *)
Definition refusing (e : jsval) : Env :=
  mkEnv (fun _ => Some e) (fun _ _ => NetworkError).

(** A fresh component and an outside that has seen nothing. *)
Definition start : World Net := mkWorld (mkNet 0 []) [] initial_ui.

(** The property names of an object, in order. *)
Definition keys (v : jsval) : list string :=
  match v with
  | VObj fields => map fst fields
  | _ => []
  end.

(** The primary mechanism is missing or its promise is rejected. *)
Definition primary_fails (br : Browser) : bool :=
  negb (has_writeText br)
  || match writeText_outcome br with
     | Some _ => true
     | None => false
     end.

(** [document.execCommand('copy')] throws. *)
Definition fallback_throws (br : Browser) : bool :=
  match execCommand_outcome br with
  | ExecThrows _ => true
  | ExecReturns _ => false
  end.

(* ===================================================================== *)
(** ** The file handler (App.js, lines 16-23 and 36-44) *)
(* ===================================================================== *)

(** [s.split(sep)] for a one-character separator: the pieces between the
    separators, in order; a string without separator is its only piece. *)
Fixpoint split (sep : ascii) (s : string) : list string :=
  match s with
  | EmptyString => [EmptyString]
  | String c rest =>
      if Ascii.eqb c sep
      then EmptyString :: split sep rest
      else match split sep rest with
           | piece :: pieces => String c piece :: pieces
           | [] => [String c EmptyString]
           end
  end.

(** What [FileReader.readAsDataURL] ends with: [onload] with the text in
    [reader.result], or [onerror]. *)
Inductive ReadOutcome : Type :=
| ReadLoads (result : string)
| ReadFails (e : jsval).

(** A file picked in the input: the URL [URL.createObjectURL] gives for
    it and what reading it ends with. *)
Record File : Type := mkFile {
  object_url : string;
  read_outcome : ReadOutcome
}.

(** [fileToBase64(file)]: resolved with [reader.result.split(',')[1]],
    rejected with the reader's error. *)
Definition fileToBase64 (file : File) : Settled jsval :=
  match read_outcome file with
  | ReadLoads result =>
      Resolved (or_undefined (js_get (VArr (map VStr (split "," result))) (KIndex 1)))
  | ReadFails e => Rejected e
  end.

(** Awaiting a promise whose ending is known. *)
Definition settle {X A : Type} (r : Settled A) : Async X A :=
  fun w => (r, w).

(** [setImage(v)]; the timeline keeps no event for it. *)
Definition setImage {X : Type} (v : jsval) (w : World X) : World X :=
  mkWorld (outside w) (timeline w)
    (mkUI v (prompt (ui w)) (loading (ui w)) (error (ui w))).

(** The [payload] literal for any value of [base64ImageData]:
    [handleImageChange] passes on whatever [fileToBase64] resolved with,
    a string or [undefined]. *)
Definition payload_of (base64ImageData : jsval) : jsval :=
  VObj [("contents",
         VArr [VObj [("role", VStr "user");
                     ("parts",
                      VArr [VObj [("text", VStr instruction)];
                            VObj [("inlineData",
                                   VObj [("mimeType", VStr "image/png");
                                         ("data", base64ImageData)])]])]])].

Definition generation_request_of (env : Env) (base64ImageData : jsval) : Op Net Response :=
  fetch env apiUrl "POST" [("Content-Type", "application/json")]
    (payload_of base64ImageData).

Local Open Scope async_scope.

(** Lines 102-116 for any value of [base64ImageData]. *)
Definition generate_of (env : Env) (base64ImageData : jsval) : Async Net unit :=
  response <- backoff (generation_request_of env base64ImageData)
                default_retries default_delay ;;
  if negb (ok response)
  then throw (js_error "Error"
                ("API error: " ++ string_of_Z (status response) ++ " "
                   ++ statusText response))
  else
    result <- response_json response ;;
    step (setPrompt (js_or (extract_text result) (VStr fallback_prompt))).

(** [analyzeImage(base64ImageData)] (lines 50-124) for any value of its
    argument; on a string it is [analyzeImage]. *)
Definition analyzeImage_of (env : Env) (base64ImageData : jsval) : Async Net unit :=
  step (setLoading true) ;;;
  step (setError "") ;;;
  signed <- try_catch
              (perform (signInAnonymously env) ;;; ret true)
              (fun e =>
                 step (console_error "Authentication failed:" e) ;;;
                 step (setError auth_error_message) ;;;
                 step (setLoading false) ;;;
                 ret false) ;;
  if signed : bool
  then finally
         (try_catch
            (generate_of env base64ImageData)
            (fun e =>
               step (console_error "Error al analizar la imagen:" e) ;;;
               step (setError generic_error_message)))
         (setLoading false)
  else ret tt.

(** [handleImageChange(e)] (lines 36-44), [file] being [e.target.files[0]]
    ([None] when it is [undefined]). *)
Definition handleImageChange (env : Env) (file : option File) : Async Net unit :=
  match file with
  | None => ret tt
  | Some f =>
      step (setImage (VStr (object_url f))) ;;;
      step (setPrompt (VStr "")) ;;;
      base64Data <- settle (fileToBase64 f) ;;
      analyzeImage_of env base64Data
  end.

Local Close Scope async_scope.

(** No comma in the string. *)
Fixpoint comma_free (s : string) : bool :=
  match s with
  | EmptyString => true
  | String c rest => negb (Ascii.eqb c ",") && comma_free rest
  end.

(** The request of [analyzeImage_of]. *)
Definition request_of (data : jsval) : Request :=
  mkRequest apiUrl "POST" [("Content-Type", "application/json")]
    (payload_of data).

(** What the second [try] block makes of a reply: the error it throws
    (left) or the prompt it sets (right). *)
Definition reply_outcome (r : Reply) : jsval + jsval :=
  match r with
  | NetworkError => inl (js_error "TypeError" "Failed to fetch")
  | Http st txt body =>
      if (200 <=? st) && (st <=? 299)
      then match body with
           | Some result => inr (js_or (extract_text result) (VStr fallback_prompt))
           | None => inl (js_error "SyntaxError" "Unexpected end of JSON input")
           end
      else inl (api_error st txt)
  end.

(** The world a run of [analyzeImage_of] leaves. *)
Definition after_run (env : Env) (data : jsval) (w : World Net) : World Net :=
  match signIn_outcome env (signIns (outside w)) with
  | Some e =>
      finished w (signed_in w) (auth_failure_events e) (prompt (ui w))
        auth_error_message
  | None =>
      let net := mkNet (S (signIns (outside w)))
                   (requests (outside w) ++ [request_of data]) in
      match reply_outcome
              (endpoint env (List.length (requests (outside w))) (request_of data)) with
      | inl e =>
          finished w net (failure_events e) (prompt (ui w)) generic_error_message
      | inr p => finished w net (success_events p) p ""
      end
  end.

(** The operation is rejected with a 429 status k times in a row from
    state [x], then rejected with [e], whose status is not 429, leaving
    state [x']. *)
Inductive fails_429_then_rejects {X A : Type} (fn : Op X A)
  : nat -> X -> jsval -> X -> Prop :=
| rejects_now x e st x' :
    fn x = (Rejected e, x') ->
    js_get e (KName "status") = Some st ->
    st <> VNum 429 ->
    fails_429_then_rejects fn 0 x e x'
| limited_first k x e0 x1 e x' :
    fn x = (Rejected e0, x1) ->
    status_is_429 e0 = Some true ->
    fails_429_then_rejects fn k x1 e x' ->
    fails_429_then_rejects fn (S k) x e x'.

(** An operation on a call counter: rejected with status 429 on its first
    call, with status 403 afterwards. *)
Definition limited_then_denied : Op nat string :=
  fun n =>
    if (n <? 1)%nat
    then (Rejected (VObj [("status", VNum 429)]), S n)
    else (Rejected (VObj [("status", VNum 403)]), S n).

(** An operation that is always rejected with [undefined]. *)
Definition rejecting_bare : Op nat string :=
  fun n => (Rejected VUndefined, S n).

(** A PNG of three bytes as the reader hands it over, and a file whose
    reading fails. *)
Definition small_png : File :=
  mkFile "blob:app/1" (ReadLoads "data:image/png;base64,QUJD").

Definition unreadable : File :=
  mkFile "blob:app/2" (ReadFails (js_error "NotReadableError" "The file could not be read")).

(** An empty file as the reader hands it over. *)
Definition empty_file : File :=
  mkFile "blob:app/3" (ReadLoads "data:").

(** A component that shows a prompt and an error from earlier runs. *)
Definition used : World Net :=
  mkWorld (mkNet 1 [the_request "QUJD"]) []
    (mkUI (VStr "blob:app/0") (VStr "An earlier prompt") false
       generic_error_message).

(** A response with two candidates, the first of two parts, and a
    property besides [candidates]. *)
Definition first_candidate : jsval :=
  VObj [("content",
         VObj [("parts", VArr [VObj [("text", VStr "first")];
                               VObj [("text", VStr "second")]])])].

Definition other_candidate : jsval :=
  VObj [("content", VObj [("parts", VArr [VObj [("text", VStr "other")]])])].

Definition two_part_response : jsval :=
  VObj [("candidates", VArr [first_candidate; other_candidate]);
        ("usageMetadata", VObj [])].

(** A browser without the asynchronous clipboard whose copy command
    returns [false]. *)
Definition old_browser : Browser :=
  mkBrowser false None (ExecReturns false).

(* ===================================================================== *)
(** ** The retry helper: equations *)
(* ===================================================================== *)

Section BackoffFacts.
Context {X A : Type}.
Implicit Types (fn : Op X A) (w : World X) (x : X).

Lemma backoff_body fn retries delay w :
  backoff fn retries delay w =
  match call fn w with
  | (Resolved v, w1) => (Resolved v, w1)
  | (Pending, w1) => (Pending, w1)
  | (Rejected err, w1) =>
      if 0 <? retries then
        match status_is_429 err with
        | None => (Pending, w1)
        | Some false => (Rejected err, w1)
        | Some true =>
            backoff fn (retries - 1) (delay * 2)
              (console_log (retry_message retries) (setTimeout delay w1))
        end
      else (Rejected err, w1)
  end.
Proof.
  simp backoff.
  destruct (call fn w) as [[v | err |] w1]; simpl; try reflexivity.
  destruct (Z_gt_dec retries 0) as [Hpos | Hneg]; simpl.
  - replace (0 <? retries) with true by (symmetry; apply Z.ltb_lt; lia).
    destruct (status_is_429 err) as [[|]|]; reflexivity.
  - replace (0 <? retries) with false by (symmetry; apply Z.ltb_ge; lia).
    reflexivity.
Qed.

Lemma call_eq fn w r x' :
  fn (outside w) = (r, x') ->
  call fn w = (r, mkWorld x' (timeline w ++ [Invoked]) (ui w)).
Proof.
  intros H. unfold call, perform, emit. simpl. rewrite H. reflexivity.
Qed.

Lemma backoff_resolved fn retries delay w v x' :
  fn (outside w) = (Resolved v, x') ->
  backoff fn retries delay w
  = (Resolved v, mkWorld x' (timeline w ++ [Invoked]) (ui w)).
Proof.
  intros H. rewrite backoff_body, (call_eq _ _ _ _ H). reflexivity.
Qed.

Lemma backoff_gives_up fn retries delay w e x' :
  fn (outside w) = (Rejected e, x') ->
  retries <= 0 \/ status_is_429 e = Some false ->
  backoff fn retries delay w
  = (Rejected e, mkWorld x' (timeline w ++ [Invoked]) (ui w)).
Proof.
  intros H Hstop. rewrite backoff_body, (call_eq _ _ _ _ H).
  destruct (0 <? retries) eqn:Hr; [| reflexivity].
  destruct Hstop as [Hle | Hst].
  - apply Z.ltb_lt in Hr. lia.
  - rewrite Hst. reflexivity.
Qed.

Lemma backoff_retries fn retries delay w e x' :
  fn (outside w) = (Rejected e, x') ->
  0 < retries ->
  status_is_429 e = Some true ->
  backoff fn retries delay w
  = backoff fn (retries - 1) (delay * 2)
      (mkWorld x'
         (timeline w ++ [Invoked; Timeout delay; ConsoleLog (retry_message retries)])
         (ui w)).
Proof.
  intros H Hpos Hst. rewrite backoff_body, (call_eq _ _ _ _ H).
  apply Z.ltb_lt in Hpos. rewrite Hpos, Hst.
  unfold console_log, setTimeout, emit. simpl.
  rewrite <- !app_assoc. reflexivity.
Qed.

(** A rejection with [null] or [undefined] while retries remain: the
    handler throws on [err.status] and the promise of [backoff] never
    settles.  No retry is made either. *)
Lemma backoff_hangs fn retries delay w e x' :
  fn (outside w) = (Rejected e, x') ->
  0 < retries ->
  js_get e (KName "status") = None ->
  backoff fn retries delay w
  = (Pending, mkWorld x' (timeline w ++ [Invoked]) (ui w)).
Proof.
  intros H Hpos Hst. rewrite backoff_body, (call_eq _ _ _ _ H).
  apply Z.ltb_lt in Hpos. rewrite Hpos.
  unfold status_is_429. rewrite Hst. reflexivity.
Qed.

End BackoffFacts.

(** *** The schedule *)

Lemma attempts_app tl1 tl2 : attempts (tl1 ++ tl2) = (attempts tl1 + attempts tl2)%nat.
Proof. unfold attempts. rewrite filter_app, length_app. reflexivity. Qed.

Lemma waits_app tl1 tl2 : waits (tl1 ++ tl2) = (waits tl1 ++ waits tl2)%list.
Proof. unfold waits. apply flat_map_app. Qed.

Lemma retry_schedule_succ k retries delay :
  retry_schedule (S k) retries delay
  = ([Invoked; Timeout delay; ConsoleLog (retry_message retries)]
       ++ retry_schedule k (retries - 1) (delay * 2))%list.
Proof. reflexivity. Qed.

Lemma attempts_schedule k retries delay :
  attempts (retry_schedule k retries delay) = S k.
Proof.
  revert retries delay. induction k as [| k IH]; intros retries delay.
  - reflexivity.
  - simpl retry_schedule.
    change (attempts (Invoked :: Timeout delay :: ConsoleLog (retry_message retries)
                        :: retry_schedule k (retries - 1) (delay * 2)))
      with (S (attempts (retry_schedule k (retries - 1) (delay * 2)))).
    rewrite IH. reflexivity.
Qed.

Lemma doubling_succ delay k :
  doubling delay (S k) = delay :: doubling (delay * 2) k.
Proof.
  unfold doubling. cbn [seq map]. rewrite <- seq_shift, map_map.
  f_equal.
  - change (2 ^ Z.of_nat 0) with 1. rewrite Z.mul_1_r. reflexivity.
  - apply map_ext. intros i.
    rewrite Nat2Z.inj_succ, Z.pow_succ_r by lia. ring.
Qed.

Lemma waits_schedule k retries delay :
  waits (retry_schedule k retries delay) = doubling delay k.
Proof.
  revert retries delay. induction k as [| k IH]; intros retries delay.
  - reflexivity.
  - rewrite doubling_succ. simpl retry_schedule.
    change (waits (Invoked :: Timeout delay :: ConsoleLog (retry_message retries)
                     :: retry_schedule k (retries - 1) (delay * 2)))
      with (delay :: waits (retry_schedule k (retries - 1) (delay * 2))).
    rewrite IH. reflexivity.
Qed.

Lemma total_doubling delay k :
  total (doubling delay k) = delay * (2 ^ Z.of_nat k - 1).
Proof.
  revert delay. induction k as [| k IH]; intros delay.
  - simpl. ring.
  - rewrite doubling_succ. simpl total. fold (total (doubling (delay * 2) k)).
    rewrite IH, Nat2Z.inj_succ, Z.pow_succ_r by lia. ring.
Qed.

Lemma nth_doubling delay k i :
  (i < k)%nat -> nth i (doubling delay k) 0 = delay * 2 ^ Z.of_nat i.
Proof.
  intros Hi. unfold doubling.
  set (term := fun j => delay * 2 ^ Z.of_nat j).
  rewrite (nth_indep _ 0 (term 0%nat))
    by (rewrite length_map, length_seq; exact Hi).
  rewrite map_nth, seq_nth by exact Hi. reflexivity.
Qed.

(* ===================================================================== *)
(** ** The retry helper: behaviour *)
(* ===================================================================== *)

Lemma strict_eq_num_spec v n : strict_eq_num v n = true <-> v = VNum n.
Proof.
  destruct v; simpl; split; intros H; try discriminate.
  - apply Z.eqb_eq in H. congruence.
  - injection H as ->. apply Z.eqb_refl.
Qed.

Lemma status_not_429 e st :
  js_get e (KName "status") = Some st -> st <> VNum 429 ->
  status_is_429 e = Some false.
Proof.
  intros Hget Hne. unfold status_is_429. rewrite Hget. f_equal.
  destruct (strict_eq_num st 429) eqn:E; [| reflexivity].
  apply strict_eq_num_spec in E. contradiction.
Qed.

Section BackoffBehaviour.
Context {X A : Type}.
Implicit Types (fn : Op X A) (w : World X) (x : X).

Lemma backoff_follows_schedule fn k x v x' :
  fails_429_then_resolves fn k x v x' ->
  forall r delay w,
    outside w = x -> Z.of_nat k <= r ->
    backoff fn r delay w
    = (Resolved v, mkWorld x' (timeline w ++ retry_schedule k r delay) (ui w)).
Proof.
  induction 1 as [x v x' Hcall | k x e x1 v x' Hcall Hst _ IH];
    intros r delay w Hx Hr; subst x.
  - apply backoff_resolved. exact Hcall.
  - rewrite (backoff_retries _ _ _ _ _ _ Hcall) by (trivial; lia).
    rewrite IH by (simpl; trivial; lia).
    rewrite retry_schedule_succ. cbn [timeline ui].
    rewrite <- app_assoc. reflexivity.
Qed.

Lemma backoff_runs_out fn :
  always_fails_429 fn ->
  forall (n : nat) delay w,
  exists e x',
    fn (after_calls fn n (outside w)) = (Rejected e, x')
    /\ backoff fn (Z.of_nat n) delay w
       = (Rejected e,
          mkWorld x' (timeline w ++ retry_schedule n (Z.of_nat n) delay) (ui w)).
Proof.
  intros Hall n. induction n as [| n IH]; intros delay w.
  - destruct (Hall (outside w)) as (e & x' & Hcall & _).
    exists e, x'. split; [exact Hcall |].
    apply backoff_gives_up; [exact Hcall | left; reflexivity].
  - destruct (Hall (outside w)) as (e & x1 & Hcall & Hst).
    rewrite (backoff_retries _ _ _ _ _ _ Hcall) by (trivial; lia).
    replace (Z.of_nat (S n) - 1) with (Z.of_nat n) by lia.
    destruct (IH (delay * 2)
                (mkWorld x1
                   (timeline w ++ [Invoked; Timeout delay;
                                   ConsoleLog (retry_message (Z.of_nat (S n)))])
                   (ui w)))
      as (e' & x' & Hlast & Hrun).
    exists e', x'. split.
    + simpl after_calls. rewrite Hcall. exact Hlast.
    + rewrite Hrun, retry_schedule_succ. cbn [timeline ui].
      replace (Z.of_nat (S n) - 1) with (Z.of_nat n) by lia.
      rewrite <- app_assoc. reflexivity.
Qed.

End BackoffBehaviour.

(** C1.  An operation rejected with status 429 exactly k times and then
    resolved with [v], retried with [r >= k]: the helper resolves with [v]
    after the calls and waits of [retry_schedule] and nothing else, that
    is k+1 calls one after the other, the wait before the (i+1)-th retry
    being [delay * 2^i], and the waits adding up to the geometric sum
    [delay * (2^k - 1)]. *)
Theorem backoff_succeeds_after_k_failures
    {X A : Type} (fn : Op X A) (k : nat) (r delay : Z) (w : World X)
    (v : A) (x' : X) :
  fails_429_then_resolves fn k (outside w) v x' ->
  Z.of_nat k <= r ->
  backoff fn r delay w
  = (Resolved v, mkWorld x' (timeline w ++ retry_schedule k r delay) (ui w))
  /\ attempts (retry_schedule k r delay) = S k
  /\ waits (retry_schedule k r delay) = doubling delay k
  /\ (forall i, (i < k)%nat ->
        nth i (waits (retry_schedule k r delay)) 0 = delay * 2 ^ Z.of_nat i)
  /\ total (waits (retry_schedule k r delay)) = delay * (2 ^ Z.of_nat k - 1).
Proof.
  intros Hfn Hr. split; [| split; [| split; [| split]]].
  - apply (backoff_follows_schedule fn k (outside w)); trivial.
  - apply attempts_schedule.
  - apply waits_schedule.
  - intros i Hi. rewrite waits_schedule. apply nth_doubling. exact Hi.
  - rewrite waits_schedule. apply total_doubling.
Qed.

Lemma backoff_succeeds_after_k_failures_witness :
  fails_429_then_resolves flaky_twice 2 0%nat "ok" 3%nat
  /\ Z.of_nat 2 <= default_retries
  /\ backoff flaky_twice default_retries default_delay (mkWorld 0%nat [] initial_ui)
     = (Resolved "ok",
        mkWorld 3%nat
          [Invoked; Timeout 1000;
           ConsoleLog "Reintentando llamada a la API... 5 reintentos restantes.";
           Invoked; Timeout 2000;
           ConsoleLog "Reintentando llamada a la API... 4 reintentos restantes.";
           Invoked]
          initial_ui).
Proof.
  assert (H : fails_429_then_resolves flaky_twice 2 0%nat "ok" 3%nat).
  { apply (fails_first flaky_twice 1 0%nat (VObj [("status", VNum 429)]) 1%nat);
      [reflexivity | reflexivity |].
    apply (fails_first flaky_twice 0 1%nat (VObj [("status", VNum 429)]) 2%nat);
      [reflexivity | reflexivity |].
    apply resolves_now. reflexivity. }
  assert (Hr : Z.of_nat 2 <= default_retries) by (unfold default_retries; lia).
  split; [exact H | split; [exact Hr |]].
  exact (proj1 (backoff_succeeds_after_k_failures flaky_twice 2 default_retries
                  default_delay (mkWorld 0%nat [] initial_ui) "ok" 3%nat H Hr)).
Defined.

(** C2.  An operation that is always rejected with status 429, retried
    with [r]: the helper makes r retries (r+1 calls, with the doubling
    waits between them) and is rejected with the error of the last call.
    With no retries left the rejection of the single call is handed on
    with no wait at all. *)
Theorem backoff_exhausts_retries
    {X A : Type} (fn : Op X A) (r : nat) (delay : Z) (w : World X) :
  always_fails_429 fn ->
  (exists e x',
      fn (after_calls fn r (outside w)) = (Rejected e, x')
      /\ backoff fn (Z.of_nat r) delay w
         = (Rejected e,
            mkWorld x' (timeline w ++ retry_schedule r (Z.of_nat r) delay) (ui w)))
  /\ attempts (retry_schedule r (Z.of_nat r) delay) = S r
  /\ waits (retry_schedule r (Z.of_nat r) delay) = doubling delay r
  /\ (forall e0 x0,
        fn (outside w) = (Rejected e0, x0) ->
        backoff fn 0 delay w
        = (Rejected e0, mkWorld x0 (timeline w ++ [Invoked]) (ui w))).
Proof.
  intros Hall. split; [| split; [| split]].
  - apply backoff_runs_out. exact Hall.
  - apply attempts_schedule.
  - apply waits_schedule.
  - intros e0 x0 Hcall. apply backoff_gives_up; [exact Hcall | left; reflexivity].
Qed.

Lemma backoff_exhausts_retries_witness :
  always_fails_429 always_limited
  /\ backoff always_limited 2 default_delay (mkWorld 0%nat [] initial_ui)
     = (Rejected (VObj [("status", VNum 429); ("call", VNum 2)]),
        mkWorld 3%nat
          [Invoked; Timeout 1000;
           ConsoleLog "Reintentando llamada a la API... 2 reintentos restantes.";
           Invoked; Timeout 2000;
           ConsoleLog "Reintentando llamada a la API... 1 reintentos restantes.";
           Invoked]
          initial_ui).
Proof.
  assert (H : always_fails_429 always_limited).
  { intros n. eexists. eexists. split; reflexivity. }
  split; [exact H |].
  destruct (proj1 (backoff_exhausts_retries always_limited 2 default_delay
                     (mkWorld 0%nat [] initial_ui) H))
    as (e & x' & Hlast & Hrun).
  change (Z.of_nat 2) with 2 in Hrun. rewrite Hrun.
  simpl in Hlast. unfold always_limited in Hlast.
  injection Hlast as <- <-. reflexivity.
Defined.

(** C3.  An operation rejected with an error whose [status] is not 429:
    whatever the number of retries left, the helper calls it once, waits
    for nothing and is rejected with that very error. *)
Theorem backoff_other_error_not_retried
    {X A : Type} (fn : Op X A) (retries delay : Z) (w : World X)
    (e st : jsval) (x' : X) :
  fn (outside w) = (Rejected e, x') ->
  js_get e (KName "status") = Some st ->
  st <> VNum 429 ->
  backoff fn retries delay w
  = (Rejected e, mkWorld x' (timeline w ++ [Invoked]) (ui w)).
Proof.
  intros Hcall Hget Hne.
  apply backoff_gives_up; [exact Hcall |].
  right. apply (status_not_429 e st); assumption.
Qed.

Lemma backoff_other_error_not_retried_witness :
  always_broken 0%nat = (Rejected (VObj [("status", VNum 500)]), 1%nat)
  /\ js_get (VObj [("status", VNum 500)]) (KName "status") = Some (VNum 500)
  /\ VNum 500 <> VNum 429
  /\ backoff always_broken default_retries default_delay (mkWorld 0%nat [] initial_ui)
     = (Rejected (VObj [("status", VNum 500)]), mkWorld 1%nat [Invoked] initial_ui).
Proof.
  assert (Hne : VNum 500 <> VNum 429) by discriminate.
  split; [reflexivity | split; [reflexivity | split; [exact Hne |]]].
  exact (backoff_other_error_not_retried always_broken default_retries default_delay
           (mkWorld 0%nat [] initial_ui) (VObj [("status", VNum 500)]) (VNum 500)
           1%nat eq_refl eq_refl Hne).
Defined.

(* ===================================================================== *)
(** ** The generation flow: what each run does *)
(* ===================================================================== *)

Section Flow.
Variable env : Env.
Variable base64ImageData : string.
Implicit Types (w : World Net).

(** [fetch] is rejected only with a TypeError, which has no [status]:
    whatever the retries and the delay, the helper calls it once. *)
Lemma backoff_fetch_once retries delay w :
  backoff (generation_request env base64ImageData) retries delay w
  = call (generation_request env base64ImageData) w.
Proof.
  rewrite backoff_body.
  unfold call, perform, generation_request, fetch. cbn [outside emit].
  destruct (endpoint env _ _) as [| st txt body]; [| reflexivity].
  destruct (0 <? retries); reflexivity.
Qed.

Lemma analyzeImage_auth_failure w e :
  signIn_outcome env (signIns (outside w)) = Some e ->
  analyzeImage env base64ImageData w
  = (Resolved tt,
     finished w (signed_in w) (auth_failure_events e) (prompt (ui w))
       auth_error_message).
Proof.
  intros Hauth.
  unfold analyzeImage, bind, try_catch, step, perform, signInAnonymously, ret.
  cbn [outside setLoading setError]. rewrite Hauth.
  unfold finished, signed_in, auth_failure_events, console_error, emit,
    setLoading, setError.
  cbn [outside timeline ui image prompt loading error].
  rewrite <- !app_assoc. reflexivity.
Qed.

Lemma analyzeImage_network_error w :
  signIn_outcome env (signIns (outside w)) = None ->
  next_reply env base64ImageData w = NetworkError ->
  analyzeImage env base64ImageData w
  = (Resolved tt,
     finished w (requested base64ImageData w)
       (failure_events (js_error "TypeError" "Failed to fetch"))
       (prompt (ui w)) generic_error_message).
Proof.
  intros Hauth Hreply. unfold next_reply, the_request in Hreply.
  unfold analyzeImage, bind, try_catch, finally, generate, bind, step, perform,
    signInAnonymously, ret.
  cbn [outside setLoading setError]. rewrite Hauth.
  rewrite backoff_fetch_once.
  unfold call, perform, generation_request, fetch, emit.
  cbn [outside timeline ui requests signIns]. rewrite Hreply.
  unfold finished, requested, the_request, failure_events, console_error, emit,
    setLoading, setError.
  cbn [outside timeline ui image prompt loading error].
  rewrite <- !app_assoc. reflexivity.
Qed.

Lemma analyzeImage_bad_status w st txt body :
  signIn_outcome env (signIns (outside w)) = None ->
  next_reply env base64ImageData w = Http st txt body ->
  (200 <=? st) && (st <=? 299) = false ->
  analyzeImage env base64ImageData w
  = (Resolved tt,
     finished w (requested base64ImageData w)
       (failure_events (api_error st txt))
       (prompt (ui w)) generic_error_message).
Proof.
  intros Hauth Hreply Hok. unfold next_reply, the_request in Hreply.
  unfold analyzeImage, bind, try_catch, finally, generate, bind, step, perform,
    signInAnonymously, ret, throw.
  cbn [outside setLoading setError]. rewrite Hauth.
  rewrite backoff_fetch_once.
  unfold call, perform, generation_request, fetch, emit.
  cbn [outside timeline ui requests signIns]. rewrite Hreply. cbn [ok status statusText].
  rewrite Hok. cbn [negb].
  unfold finished, requested, the_request, failure_events, api_error,
    console_error, emit, setLoading, setError.
  cbn [outside timeline ui image prompt loading error].
  rewrite <- !app_assoc. reflexivity.
Qed.

Lemma analyzeImage_not_json w st txt :
  signIn_outcome env (signIns (outside w)) = None ->
  next_reply env base64ImageData w = Http st txt None ->
  (200 <=? st) && (st <=? 299) = true ->
  analyzeImage env base64ImageData w
  = (Resolved tt,
     finished w (requested base64ImageData w)
       (failure_events (js_error "SyntaxError" "Unexpected end of JSON input"))
       (prompt (ui w)) generic_error_message).
Proof.
  intros Hauth Hreply Hok. unfold next_reply, the_request in Hreply.
  unfold analyzeImage, bind, try_catch, finally, generate, bind, step, perform,
    signInAnonymously, ret, throw, response_json.
  cbn [outside setLoading setError]. rewrite Hauth.
  rewrite backoff_fetch_once.
  unfold call, perform, generation_request, fetch, emit.
  cbn [outside timeline ui requests signIns]. rewrite Hreply. cbn [ok parsed_body].
  rewrite Hok. cbn [negb]. unfold throw.
  unfold finished, requested, the_request, failure_events,
    console_error, emit, setLoading, setError.
  cbn [outside timeline ui image prompt loading error].
  rewrite <- !app_assoc. reflexivity.
Qed.

Lemma analyzeImage_success w st txt result :
  signIn_outcome env (signIns (outside w)) = None ->
  next_reply env base64ImageData w = Http st txt (Some result) ->
  (200 <=? st) && (st <=? 299) = true ->
  analyzeImage env base64ImageData w
  = (Resolved tt,
     finished w (requested base64ImageData w)
       (success_events (js_or (extract_text result) (VStr fallback_prompt)))
       (js_or (extract_text result) (VStr fallback_prompt)) "").
Proof.
  intros Hauth Hreply Hok. unfold next_reply, the_request in Hreply.
  unfold analyzeImage, bind, try_catch, finally, generate, bind, step, perform,
    signInAnonymously, ret, throw, response_json.
  cbn [outside setLoading setError]. rewrite Hauth.
  rewrite backoff_fetch_once.
  unfold call, perform, generation_request, fetch, emit.
  cbn [outside timeline ui requests signIns]. rewrite Hreply. cbn [ok parsed_body].
  rewrite Hok. cbn [negb]. unfold ret.
  unfold finished, requested, the_request, success_events,
    emit, setLoading, setError, setPrompt.
  cbn [outside timeline ui image prompt loading error].
  rewrite <- !app_assoc. reflexivity.
Qed.

End Flow.

(* ===================================================================== *)
(** ** The optional chain against paths of the response *)
(* ===================================================================== *)

Lemma extract_text_chain result :
  extract_text result = fold_left opt_get text_path result.
Proof. reflexivity. Qed.

Lemma opt_get_member v k v' : json_member v k = Some v' -> opt_get v k = v'.
Proof.
  unfold opt_get. destruct v; simpl; try discriminate.
  - destruct k as [n | i]; [discriminate |].
    intros H. simpl. apply nth_error_nth. exact H.
  - intros ->. reflexivity.
Qed.

Lemma chain_undefined path : fold_left opt_get path VUndefined = VUndefined.
Proof. induction path as [| k rest IH]; simpl; trivial. Qed.

Lemma json_path_found path : forall v t,
  json_path v path = Some t -> fold_left opt_get path v = t.
Proof.
  induction path as [| k rest IH]; intros v t H; simpl in *.
  - congruence.
  - destruct (json_member v k) as [v' |] eqn:Hm; [| discriminate].
    rewrite (opt_get_member _ _ _ Hm). apply IH. exact H.
Qed.

Lemma plain_path_tail k rest : plain_path (k :: rest) -> plain_path rest.
Proof.
  destruct k as [n | i]; simpl.
  - intros [_ H]. exact H.
  - destruct rest as [| [m | j] rest']; simpl; tauto.
Qed.

(** A name that is not a member leads to [undefined]. *)
Lemma opt_get_no_name v n :
  String.eqb n "length" = false ->
  json_member v (KName n) = None ->
  opt_get v (KName n) = VUndefined.
Proof.
  intros Hn. unfold opt_get. destruct v; simpl; try reflexivity.
  - rewrite Hn. reflexivity.
  - rewrite Hn. reflexivity.
  - intros ->. reflexivity.
Qed.

(** An index that is not a member leads to [undefined] or, on a string, to
    one of its characters; a further name leads to [undefined]. *)
Lemma opt_get_no_index v i m :
  String.eqb m "length" = false ->
  json_member v (KIndex i) = None ->
  opt_get (opt_get v (KIndex i)) (KName m) = VUndefined.
Proof.
  intros Hm. unfold opt_get. destruct v; simpl; try reflexivity.
  - destruct (String.get i s); simpl; [rewrite Hm |]; reflexivity.
  - intros H. apply nth_error_None in H.
    rewrite nth_overflow by exact H. reflexivity.
  - intros ->. reflexivity.
Qed.

Lemma json_path_absent path : forall v,
  plain_path path -> json_path v path = None ->
  fold_left opt_get path v = VUndefined.
Proof.
  induction path as [| k rest IH]; intros v Hplain H.
  - discriminate.
  - simpl in H. destruct (json_member v k) as [v' |] eqn:Hm.
    + simpl. rewrite (opt_get_member _ _ _ Hm).
      apply IH; [exact (plain_path_tail _ _ Hplain) | exact H].
    + destruct k as [n | i].
      * destruct Hplain as [Hn _]. simpl.
        rewrite (opt_get_no_name _ _ Hn Hm). apply chain_undefined.
      * destruct rest as [| [m | j] rest']; simpl in Hplain; try contradiction.
        destruct Hplain as [Hmname _]. simpl.
        rewrite (opt_get_no_index _ _ _ Hmname Hm). apply chain_undefined.
Qed.

Lemma text_path_plain : plain_path text_path.
Proof. simpl. repeat split. Qed.

(** The text field is absent from the response: the chain is [undefined]. *)
Lemma extract_text_absent result :
  json_path result text_path = None -> extract_text result = VUndefined.
Proof.
  intros H. rewrite extract_text_chain.
  apply json_path_absent; [exact text_path_plain | exact H].
Qed.

(** The text field is there: the chain is its value. *)
Lemma extract_text_present result t :
  json_path result text_path = Some t -> extract_text result = t.
Proof.
  intros H. rewrite extract_text_chain. apply json_path_found. exact H.
Qed.

Lemma response_with_text_path t :
  json_path (response_with_text t) text_path = Some t.
Proof. reflexivity. Qed.

Lemma render_finished w net evs p msg :
  render (ui (finished w net evs p msg))
  = {| spinner := false;
       error_box := if truthy (VStr msg) then Some msg else None;
       prompt_box := if truthy p then Some p else None |}.
Proof. reflexivity. Qed.

Lemma in_range_200 : (200 <=? 200) && (200 <=? 299) = true.
Proof. reflexivity. Qed.

(* ===================================================================== *)
(** ** The generation flow: every run *)
(* ===================================================================== *)

Lemma analyzeImage_runs env b w :
  exists net evs p msg,
    analyzeImage env b w = (Resolved tt, finished w net evs p msg)
    /\ Run env b w net evs p msg.
Proof.
  destruct (signIn_outcome env (signIns (outside w))) as [e |] eqn:Hauth.
  - do 4 eexists. split.
    + apply analyzeImage_auth_failure. exact Hauth.
    + apply run_auth_failed. exact Hauth.
  - destruct (next_reply env b w) as [| st txt body] eqn:Hreply.
    + do 4 eexists. split.
      * apply analyzeImage_network_error; assumption.
      * apply run_failed. exact Hauth.
    + destruct ((200 <=? st) && (st <=? 299)) eqn:Hok.
      * destruct body as [result |].
        -- do 4 eexists. split.
           ++ apply (analyzeImage_success env b w st txt result); assumption.
           ++ apply (run_succeeded env b w st txt result); assumption.
        -- do 4 eexists. split.
           ++ apply (analyzeImage_not_json env b w st txt); assumption.
           ++ apply run_failed. exact Hauth.
      * do 4 eexists. split.
        -- apply (analyzeImage_bad_status env b w st txt body); assumption.
        -- apply run_failed. exact Hauth.
Qed.

(** Whatever the endpoint does, a run sends it at most one request. *)
Lemma analyzeImage_requests env b w :
  requests (outside (snd (analyzeImage env b w))) = requests (outside w)
  \/ requests (outside (snd (analyzeImage env b w)))
     = (requests (outside w) ++ [the_request b])%list.
Proof.
  destruct (analyzeImage_runs env b w) as (net & evs & p & msg & Heq & Hrun).
  rewrite Heq. destruct Hrun; simpl; auto.
Qed.

(** C4, on the code.  With the endpoint answering every request with HTTP
    429, the flow sends one request and no more: the promise of [fetch] is
    resolved with the 429 response, so the helper has nothing to retry and
    starts no timer; the response is then refused for not being [ok] and
    the generic failure message is shown. *)
Theorem http_429_is_not_retried (b : string) (w : World Net) (txt : string)
    (body : option jsval) :
  analyzeImage (answering (Http 429 txt body)) b w
  = (Resolved tt,
     finished w (requested b w) (failure_events (api_error 429 txt))
       (prompt (ui w)) generic_error_message)
  /\ requests (requested b w) = (requests (outside w) ++ [the_request b])%list
  /\ attempts (failure_events (api_error 429 txt)) = 1%nat
  /\ waits (failure_events (api_error 429 txt)) = []
  /\ error_box
       (render (ui (finished w (requested b w) (failure_events (api_error 429 txt))
                      (prompt (ui w)) generic_error_message)))
     = Some generic_error_message.
Proof.
  split; [| repeat split].
  apply (analyzeImage_bad_status _ b w 429 txt body); reflexivity.
Qed.

(** C5.  When the anonymous sign-in is rejected, the flow ends showing the
    authentication message; the endpoint receives no request, the
    operation of the retry helper is never called, and the sign-in is
    tried once. *)
Theorem auth_failure_aborts (env : Env) (b : string) (w : World Net) (e : jsval) :
  signIn_outcome env (signIns (outside w)) = Some e ->
  exists w' evs,
    analyzeImage env b w = (Resolved tt, w')
    /\ timeline w' = (timeline w ++ evs)%list
    /\ error_box (render (ui w')) = Some auth_error_message
    /\ requests (outside w') = requests (outside w)
    /\ attempts evs = 0%nat
    /\ signIns (outside w') = S (signIns (outside w))
    /\ loading (ui w') = false.
Proof.
  intros Hauth.
  exists (finished w (signed_in w) (auth_failure_events e) (prompt (ui w))
            auth_error_message), (auth_failure_events e).
  split; [apply analyzeImage_auth_failure; exact Hauth |].
  repeat split.
Qed.

Lemma auth_failure_aborts_witness :
  signIn_outcome (refusing (js_error "FirebaseError" "auth/network-request-failed"))
    (signIns (outside start))
  = Some (js_error "FirebaseError" "auth/network-request-failed")
  /\ exists w' evs,
       analyzeImage (refusing (js_error "FirebaseError" "auth/network-request-failed"))
         "QUJD" start = (Resolved tt, w')
       /\ timeline w' = (timeline start ++ evs)%list
       /\ error_box (render (ui w')) = Some auth_error_message
       /\ requests (outside w') = requests (outside start)
       /\ attempts evs = 0%nat
       /\ signIns (outside w') = S (signIns (outside start))
       /\ loading (ui w') = false.
Proof.
  split; [reflexivity |].
  apply (auth_failure_aborts
           (refusing (js_error "FirebaseError" "auth/network-request-failed"))
           "QUJD" start (js_error "FirebaseError" "auth/network-request-failed")).
  reflexivity.
Defined.

Lemma js_or_falsy a b : truthy a = false -> js_or a b = b.
Proof. unfold js_or. intros ->. reflexivity. Qed.

(** A 200 response whose text is falsy or missing: the fallback prompt is
    set and shown, and nothing is reported as an error. *)
Lemma falsy_text_shows_fallback env b w txt result :
  signIn_outcome env (signIns (outside w)) = None ->
  next_reply env b w = Http 200 txt (Some result) ->
  truthy (extract_text result) = false ->
  exists w' evs,
    analyzeImage env b w = (Resolved tt, w')
    /\ timeline w' = (timeline w ++ evs)%list
    /\ prompt (ui w') = VStr fallback_prompt
    /\ prompt_box (render (ui w')) = Some (VStr fallback_prompt)
    /\ error_box (render (ui w')) = None
    /\ console_errors evs = []
    /\ outcomes evs = [SetPrompt (VStr fallback_prompt)].
Proof.
  intros Hauth Hreply Hfalsy.
  exists (finished w (requested b w) (success_events (VStr fallback_prompt))
            (VStr fallback_prompt) ""), (success_events (VStr fallback_prompt)).
  split.
  - rewrite (analyzeImage_success env b w 200 txt result Hauth Hreply in_range_200).
    rewrite (js_or_falsy _ _ Hfalsy). reflexivity.
  - repeat split.
Qed.

(** C6.  The endpoint answers 200 with a JSON body from which
    [candidates[0].content.parts[0].text] is absent: the prompt set and
    shown is the literal fallback string, and no error is raised (no error
    message is set or shown, nothing is logged as an error). *)
Theorem missing_text_shows_fallback
    (env : Env) (b : string) (w : World Net) (txt : string) (result : jsval) :
  signIn_outcome env (signIns (outside w)) = None ->
  next_reply env b w = Http 200 txt (Some result) ->
  json_path result text_path = None ->
  exists w' evs,
    analyzeImage env b w = (Resolved tt, w')
    /\ timeline w' = (timeline w ++ evs)%list
    /\ prompt (ui w') = VStr fallback_prompt
    /\ prompt_box (render (ui w')) = Some (VStr fallback_prompt)
    /\ error_box (render (ui w')) = None
    /\ console_errors evs = []
    /\ outcomes evs = [SetPrompt (VStr fallback_prompt)].
Proof.
  intros Hauth Hreply Habsent.
  apply (falsy_text_shows_fallback env b w txt result Hauth Hreply).
  rewrite (extract_text_absent _ Habsent). reflexivity.
Qed.

Lemma missing_text_shows_fallback_witness :
  signIn_outcome (answering (Http 200 "OK" (Some (VObj [("candidates", VArr [])]))))
    (signIns (outside start)) = None
  /\ next_reply (answering (Http 200 "OK" (Some (VObj [("candidates", VArr [])]))))
       "QUJD" start
     = Http 200 "OK" (Some (VObj [("candidates", VArr [])]))
  /\ json_path (VObj [("candidates", VArr [])]) text_path = None
  /\ exists w' evs,
       analyzeImage (answering (Http 200 "OK" (Some (VObj [("candidates", VArr [])]))))
         "QUJD" start = (Resolved tt, w')
       /\ timeline w' = (timeline start ++ evs)%list
       /\ prompt (ui w') = VStr fallback_prompt
       /\ prompt_box (render (ui w')) = Some (VStr fallback_prompt)
       /\ error_box (render (ui w')) = None
       /\ console_errors evs = []
       /\ outcomes evs = [SetPrompt (VStr fallback_prompt)].
Proof.
  split; [reflexivity | split; [reflexivity | split; [reflexivity |]]].
  apply (missing_text_shows_fallback
           (answering (Http 200 "OK" (Some (VObj [("candidates", VArr [])]))))
           "QUJD" start "OK" (VObj [("candidates", VArr [])]));
    reflexivity.
Defined.

(** C10.  The endpoint answers 200 and the text field is there but falsy,
    the empty string in particular: the prompt set and shown is the
    literal fallback string, as for an absent field, and not that value. *)
Theorem falsy_text_treated_as_absent
    (env : Env) (b : string) (w : World Net) (txt : string) (result t : jsval) :
  signIn_outcome env (signIns (outside w)) = None ->
  next_reply env b w = Http 200 txt (Some result) ->
  json_path result text_path = Some t ->
  truthy t = false ->
  exists w' evs,
    analyzeImage env b w = (Resolved tt, w')
    /\ timeline w' = (timeline w ++ evs)%list
    /\ prompt (ui w') = VStr fallback_prompt
    /\ prompt_box (render (ui w')) = Some (VStr fallback_prompt)
    /\ error_box (render (ui w')) = None
    /\ console_errors evs = []
    /\ outcomes evs = [SetPrompt (VStr fallback_prompt)].
Proof.
  intros Hauth Hreply Hthere Hfalsy.
  apply (falsy_text_shows_fallback env b w txt result Hauth Hreply).
  rewrite (extract_text_present _ _ Hthere). exact Hfalsy.
Qed.

Lemma falsy_text_treated_as_absent_witness :
  signIn_outcome (answering (Http 200 "OK" (Some (response_with_text (VStr "")))))
    (signIns (outside start)) = None
  /\ next_reply (answering (Http 200 "OK" (Some (response_with_text (VStr "")))))
       "QUJD" start
     = Http 200 "OK" (Some (response_with_text (VStr "")))
  /\ json_path (response_with_text (VStr "")) text_path = Some (VStr "")
  /\ truthy (VStr "") = false
  /\ exists w' evs,
       analyzeImage (answering (Http 200 "OK" (Some (response_with_text (VStr "")))))
         "QUJD" start = (Resolved tt, w')
       /\ timeline w' = (timeline start ++ evs)%list
       /\ prompt (ui w') = VStr fallback_prompt
       /\ prompt_box (render (ui w')) = Some (VStr fallback_prompt)
       /\ error_box (render (ui w')) = None
       /\ console_errors evs = []
       /\ outcomes evs = [SetPrompt (VStr fallback_prompt)].
Proof.
  split; [reflexivity | split; [reflexivity | split; [reflexivity | split; [reflexivity |]]]].
  apply (falsy_text_treated_as_absent
           (answering (Http 200 "OK" (Some (response_with_text (VStr "")))))
           "QUJD" start "OK" (response_with_text (VStr "")) (VStr ""));
    reflexivity.
Defined.

(** C7.  For every base64 string the payload is an object with the single
    property [contents], an array of one entry with role "user" whose
    parts are exactly two, in this order: the fixed instruction as [text],
    and an [inlineData] of [mimeType] "image/png" whose [data] is the
    given string.  A run of the flow sends the endpoint that payload:
    when sign-in works, exactly one request, a POST of the payload to the
    endpoint's URL, is added to what the endpoint has received, and the
    [data] of its body is the given string; when sign-in fails, none. *)
Theorem payload_is_sent_as_built (env : Env) (b : string) (w : World Net) :
  (exists entry text_part image_part inline,
      keys (payload b) = ["contents"]
      /\ json_member (payload b) (KName "contents") = Some (VArr [entry])
      /\ keys entry = ["role"; "parts"]
      /\ json_member entry (KName "role") = Some (VStr "user")
      /\ json_member entry (KName "parts") = Some (VArr [text_part; image_part])
      /\ keys text_part = ["text"]
      /\ json_member text_part (KName "text") = Some (VStr instruction)
      /\ keys image_part = ["inlineData"]
      /\ json_member image_part (KName "inlineData") = Some inline
      /\ keys inline = ["mimeType"; "data"]
      /\ json_member inline (KName "mimeType") = Some (VStr "image/png")
      /\ json_member inline (KName "data") = Some (VStr b))
  /\ requests (outside (snd (analyzeImage env b w)))
     = (requests (outside w)
          ++ match signIn_outcome env (signIns (outside w)) with
             | None =>
                 [mkRequest apiUrl "POST" [("Content-Type", "application/json")]
                    (payload b)]
             | Some _ => []
             end)%list
  /\ (signIn_outcome env (signIns (outside w)) = None ->
      json_path
        (req_body (last (requests (outside (snd (analyzeImage env b w))))
                     (mkRequest "" "" [] VNull)))
        [KName "contents"; KIndex 0; KName "parts"; KIndex 1;
         KName "inlineData"; KName "data"]
      = Some (VStr b)).
Proof.
  assert (Hsent : requests (outside (snd (analyzeImage env b w)))
                  = (requests (outside w)
                       ++ match signIn_outcome env (signIns (outside w)) with
                          | None => [the_request b]
                          | Some _ => []
                          end)%list).
  { destruct (analyzeImage_runs env b w) as (net & evs & p & msg & Heq & Hrun).
    rewrite Heq. cbn [snd finished outside].
    destruct Hrun as [e Hauth | e Hauth | st txt result Hauth Hreply Hok];
      rewrite Hauth; cbn [signed_in requested requests].
    - rewrite app_nil_r. reflexivity.
    - reflexivity.
    - reflexivity. }
  split; [do 4 eexists; repeat split |].
  split; [exact Hsent |].
  intros Hauth. rewrite Hsent, Hauth, last_last. reflexivity.
Qed.

Lemma js_or_fallback_truthy a :
  truthy (js_or a (VStr fallback_prompt)) = true.
Proof.
  unfold js_or. destruct (truthy a) eqn:Ha; [exact Ha | reflexivity].
Qed.

Lemma prompt_text_finished w net evs p msg :
  truthy p = true ->
  prompt_text (ui (finished w net evs p msg)) = Some (js_to_string p).
Proof.
  intros Hp. unfold prompt_text. rewrite render_finished.
  cbn [prompt_box]. rewrite Hp. reflexivity.
Qed.

Lemma in_range st :
  (200 <=? st) && (st <=? 299) = true -> 200 <= st <= 299.
Proof.
  intros H. apply andb_true_iff in H. destruct H as [H1 H2].
  apply Z.leb_le in H1. apply Z.leb_le in H2. split; assumption.
Qed.

Lemma not_in_range st :
  (200 <=? st) && (st <=? 299) = false -> st < 200 \/ 299 < st.
Proof.
  intros H. apply andb_false_iff in H. destruct H as [H | H];
    apply Z.leb_gt in H; [left | right]; exact H.
Qed.

(** C8.  Every run of the flow ends, with the loading flag back to false
    (spinner off) and exactly one outcome set, and which one is decided
    by what happened.  Sign-in rejected: the authentication message.
    Signed in, and no response, a status outside 200..299 or a 2xx body
    that is not JSON: the generic message.  Signed in and a 2xx JSON
    body: a prompt, the truthy text of the response or else the fallback
    string, which the prompt area shows as a string (as it is when the
    text is a string), with no error shown.  An error message leaves the
    prompt as it was. *)
Theorem flow_ends_idle_with_one_outcome (env : Env) (b : string) (w : World Net) :
  exists w' evs,
    analyzeImage env b w = (Resolved tt, w')
    /\ timeline w' = (timeline w ++ evs)%list
    /\ loading (ui w') = false
    /\ spinner (render (ui w')) = false
    /\ ((exists st txt result p,
            signIn_outcome env (signIns (outside w)) = None
            /\ next_reply env b w = Http st txt (Some result)
            /\ 200 <= st <= 299
            /\ p = js_or (extract_text result) (VStr fallback_prompt)
            /\ truthy p = true
            /\ outcomes evs = [SetPrompt p]
            /\ prompt (ui w') = p
            /\ prompt_text (ui w') = Some (js_to_string p)
            /\ (forall s, p = VStr s -> prompt_text (ui w') = Some s)
            /\ error (ui w') = ""
            /\ error_box (render (ui w')) = None)
        \/ (exists e,
              signIn_outcome env (signIns (outside w)) = Some e
              /\ outcomes evs = [SetError auth_error_message]
              /\ error (ui w') = auth_error_message
              /\ error_box (render (ui w')) = Some auth_error_message
              /\ prompt (ui w') = prompt (ui w))
        \/ (signIn_outcome env (signIns (outside w)) = None
            /\ (next_reply env b w = NetworkError
                \/ (exists st txt body,
                      next_reply env b w = Http st txt body
                      /\ (st < 200 \/ 299 < st))
                \/ (exists st txt,
                      next_reply env b w = Http st txt None
                      /\ 200 <= st <= 299))
            /\ outcomes evs = [SetError generic_error_message]
            /\ error (ui w') = generic_error_message
            /\ error_box (render (ui w')) = Some generic_error_message
            /\ prompt (ui w') = prompt (ui w))).
Proof.
  destruct (signIn_outcome env (signIns (outside w))) as [e |] eqn:Hauth.
  - do 2 eexists. split; [apply (analyzeImage_auth_failure env b w e Hauth) |].
    split; [reflexivity |]. split; [reflexivity |]. split; [reflexivity |].
    right. left. exists e. repeat split.
  - destruct (next_reply env b w) as [| st txt body] eqn:Hreply.
    + do 2 eexists.
      split; [apply (analyzeImage_network_error env b w Hauth Hreply) |].
      split; [reflexivity |]. split; [reflexivity |]. split; [reflexivity |].
      right. right. repeat split. left. reflexivity.
    + destruct ((200 <=? st) && (st <=? 299)) eqn:Hok.
      * destruct body as [result |].
        -- do 2 eexists.
           split; [apply (analyzeImage_success env b w st txt result Hauth Hreply Hok) |].
           split; [reflexivity |]. split; [reflexivity |]. split; [reflexivity |].
           left. exists st, txt, result,
                   (js_or (extract_text result) (VStr fallback_prompt)).
           pose proof (js_or_fallback_truthy (extract_text result)) as Htruthy.
           split; [reflexivity |]. split; [reflexivity |].
           split; [exact (in_range st Hok) |]. split; [reflexivity |].
           split; [exact Htruthy |]. split; [reflexivity |].
           split; [reflexivity |].
           split; [apply prompt_text_finished; exact Htruthy |].
           split; [| split; reflexivity].
           intros s Hs. rewrite (prompt_text_finished _ _ _ _ _ Htruthy), Hs.
           reflexivity.
        -- do 2 eexists.
           split; [apply (analyzeImage_not_json env b w st txt Hauth Hreply Hok) |].
           split; [reflexivity |]. split; [reflexivity |]. split; [reflexivity |].
           right. right. repeat split.
           right. right. exists st, txt. split; [reflexivity | exact (in_range st Hok)].
      * do 2 eexists.
        split; [apply (analyzeImage_bad_status env b w st txt body Hauth Hreply Hok) |].
        split; [reflexivity |]. split; [reflexivity |]. split; [reflexivity |].
        right. right. repeat split.
        right. left. exists st, txt, body.
        split; [reflexivity | exact (not_in_range st Hok)].
Qed.

(* ===================================================================== *)
(** ** Clipboard copy: every run *)
(* ===================================================================== *)

Lemma alerts_cons_other e tl :
  match e with Alert _ => false | _ => true end = true ->
  alerts ((e :: nil) ++ tl) = alerts tl.
Proof. destruct e; simpl; intros H; try reflexivity. discriminate H. Qed.

Lemma copyToClipboardFallback_runs br text (w : World Board) :
  exists evs,
    copyToClipboardFallback br text w
    = (Resolved tt,
       mkWorld (mkBoard (match execCommand_outcome br with
                         | ExecReturns true => Some (textarea_value text)
                         | _ => clipboard (outside w)
                         end)
                  (textareas (outside w)))
         (timeline w ++ evs) (ui w))
    /\ alerts evs = [if fallback_throws br then copy_failure_message
                     else copy_success_message].
Proof.
  unfold copyToClipboardFallback, bind, try_catch, step, perform, execCommand_copy,
    fallback_throws, removeChild, appendChild, alert, console_error, emit.
  cbn [outside timeline ui clipboard textareas].
  destruct (execCommand_outcome br) as [[|] | e];
    cbn [outside timeline ui clipboard textareas];
    rewrite ?removelast_last, ?last_last, <- ?app_assoc;
    eexists; split; reflexivity.
Qed.

(** C9.  Whatever the prompt and the browser, a copy ends with exactly one
    notification, the success confirmation or the failure notification;
    the failure notification appears exactly when the primary mechanism
    is missing or rejected and the fallback command throws.  When the
    primary mechanism works the clipboard holds the prompt as a string:
    a prompt that is a string, as it is. *)
Theorem copy_always_notifies (br : Browser) (w : World Board) :
  exists w' evs,
    copyPromptToClipboard br w = (Resolved tt, w')
    /\ timeline w' = (timeline w ++ evs)%list
    /\ (alerts evs = [copy_success_message] \/ alerts evs = [copy_failure_message])
    /\ (alerts evs = [copy_failure_message]
        <-> primary_fails br = true /\ fallback_throws br = true)
    /\ (primary_fails br = false ->
        clipboard (outside w') = Some (js_to_string (prompt (ui w))))
    /\ (forall s, prompt (ui w) = VStr s -> primary_fails br = false ->
          clipboard (outside w') = Some s)
    /\ textareas (outside w') = textareas (outside w).
Proof.
  destruct w as [board tl u].
  unfold copyPromptToClipboard, primary_fails.
  destruct (has_writeText br) eqn:Hhas; cbn [negb orb ui prompt].
  - unfold try_catch, bind, perform, writeText, step, alert, emit.
    destruct (writeText_outcome br) as [e |] eqn:Hwrite.
    + cbn [outside timeline ui].
      destruct (copyToClipboardFallback_runs br (prompt u)
                  (console_error "Error al usar navigator.clipboard:" e
                     (mkWorld board tl u)))
        as (evs & Hrun & Halerts).
      rewrite Hrun. unfold console_error, emit.
      cbn [outside timeline ui]. rewrite <- app_assoc.
      do 2 eexists. split; [reflexivity |]. split; [reflexivity |].
      rewrite alerts_cons_other by reflexivity. rewrite Halerts.
      destruct (fallback_throws br); repeat split; auto;
        try discriminate; try (intros; discriminate).
      intros [_ H]. discriminate H.
    + cbn [outside timeline ui clipboard textareas].
      do 2 eexists. split; [reflexivity |]. split; [reflexivity |].
      repeat split; auto; try discriminate.
      * intros [H _]. discriminate H.
      * intros s Hs _. cbn [prompt]. rewrite Hs. reflexivity.
  - destruct (copyToClipboardFallback_runs br (prompt u) (mkWorld board tl u))
      as (evs & Hrun & Halerts).
    rewrite Hrun. do 2 eexists. split; [reflexivity |]. split; [reflexivity |].
    rewrite Halerts.
    destruct (fallback_throws br); repeat split; auto;
      try discriminate; try (intros; discriminate).
    intros [_ H]. discriminate H.
Qed.

(* ===================================================================== *)
(** ** The retry helper: further behaviour *)
(* ===================================================================== *)

Section BackoffBudget.
Context {X A : Type}.
Implicit Types (fn : Op X A) (w : World X) (x : X).

Lemma backoff_pending fn retries delay w x' :
  fn (outside w) = (Pending, x') ->
  backoff fn retries delay w
  = (Pending, mkWorld x' (timeline w ++ [Invoked]) (ui w)).
Proof.
  intros H. rewrite backoff_body, (call_eq _ _ _ _ H). reflexivity.
Qed.

Lemma status_unreadable e :
  status_is_429 e = None -> js_get e (KName "status") = None.
Proof.
  unfold status_is_429. destruct (js_get e (KName "status")); [discriminate | trivial].
Qed.

(** Whatever the operation does, what the helper adds to the timeline is
    the schedule of some number of retries within the budget. *)
Lemma backoff_schedule_prefix fn (n : nat) :
  forall retries delay w,
    Z.to_nat retries = n ->
    exists k x',
      (k <= n)%nat
      /\ snd (backoff fn retries delay w)
         = mkWorld x' (timeline w ++ retry_schedule k retries delay) (ui w).
Proof.
  induction n as [| n IH]; intros retries delay w Hn;
    destruct (fn (outside w)) as [[v | e |] x'] eqn:Hcall.
  - exists 0%nat, x'. rewrite (backoff_resolved _ _ _ _ _ _ Hcall). auto.
  - exists 0%nat, x'.
    rewrite (backoff_gives_up _ _ _ _ _ _ Hcall) by (left; lia). auto.
  - exists 0%nat, x'. rewrite (backoff_pending _ _ _ _ _ Hcall). auto.
  - exists 0%nat, x'. rewrite (backoff_resolved _ _ _ _ _ _ Hcall).
    split; [lia | reflexivity].
  - destruct (status_is_429 e) as [[|] |] eqn:Hst.
    + rewrite (backoff_retries _ _ _ _ _ _ Hcall) by (trivial; lia).
      destruct (IH (retries - 1) (delay * 2)
                  (mkWorld x'
                     (timeline w ++ [Invoked; Timeout delay;
                                     ConsoleLog (retry_message retries)])
                     (ui w)))
        as (k & x'' & Hk & Hrun); [lia |].
      exists (S k), x''. split; [lia |].
      rewrite Hrun, retry_schedule_succ. cbn [timeline ui].
      rewrite <- app_assoc. reflexivity.
    + exists 0%nat, x'.
      rewrite (backoff_gives_up _ _ _ _ _ _ Hcall) by (right; exact Hst).
      split; [lia | reflexivity].
    + exists 0%nat, x'.
      rewrite (backoff_hangs _ _ _ _ _ _ Hcall) by (try lia; apply status_unreadable; exact Hst).
      split; [lia | reflexivity].
  - exists 0%nat, x'. rewrite (backoff_pending _ _ _ _ _ Hcall).
    split; [lia | reflexivity].
Qed.

Lemma backoff_follows_schedule_to_rejection fn k x e x' :
  fails_429_then_rejects fn k x e x' ->
  forall r delay w,
    outside w = x -> Z.of_nat k <= r ->
    backoff fn r delay w
    = (Rejected e, mkWorld x' (timeline w ++ retry_schedule k r delay) (ui w)).
Proof.
  induction 1 as [x e st x' Hcall Hget Hne | k x e0 x1 e x' Hcall Hst _ IH];
    intros r delay w Hx Hr; subst x.
  - apply backoff_gives_up; [exact Hcall |].
    right. apply (status_not_429 e st); assumption.
  - rewrite (backoff_retries _ _ _ _ _ _ Hcall) by (trivial; lia).
    rewrite IH by (simpl; trivial; lia).
    rewrite retry_schedule_succ. cbn [timeline ui].
    rewrite <- app_assoc. reflexivity.
Qed.

End BackoffBudget.

Lemma doubling_total_monotone delay k n :
  0 <= delay -> (k <= n)%nat ->
  total (doubling delay k) <= delay * (2 ^ Z.of_nat n - 1).
Proof.
  intros Hd Hk. rewrite total_doubling.
  apply Z.mul_le_mono_nonneg_l; [exact Hd |].
  assert (2 ^ Z.of_nat k <= 2 ^ Z.of_nat n) by (apply Z.pow_le_mono_r; lia).
  lia.
Qed.

(** X1.  Whatever the operation does and however the helper ends, it
    stays within its budget: it adds to the timeline the schedule of some
    k retries with k at most the number of retries it was given (none
    when that number is negative), so it calls the operation k+1 times,
    its waits are the doubling sequence of k terms starting at [delay],
    and it leaves the component's state alone. *)
Theorem backoff_stays_within_budget
    {X A : Type} (fn : Op X A) (retries delay : Z) (w : World X) :
  exists k evs,
    (k <= Z.to_nat retries)%nat
    /\ timeline (snd (backoff fn retries delay w)) = (timeline w ++ evs)%list
    /\ evs = retry_schedule k retries delay
    /\ attempts evs = S k
    /\ waits evs = doubling delay k
    /\ ui (snd (backoff fn retries delay w)) = ui w.
Proof.
  destruct (backoff_schedule_prefix fn (Z.to_nat retries) retries delay w eq_refl)
    as (k & x' & Hk & Hrun).
  exists k, (retry_schedule k retries delay). rewrite Hrun.
  split; [exact Hk |]. split; [reflexivity |]. split; [reflexivity |].
  split; [apply attempts_schedule |]. split; [apply waits_schedule | reflexivity].
Qed.

(** X2.  With a delay that is not negative, the time the helper spends
    waiting is at most [delay * (2^retries - 1)], whatever the operation
    does: 31000 ms with the default 5 retries and 1000 ms. *)
Theorem backoff_total_wait_bounded
    {X A : Type} (fn : Op X A) (retries delay : Z) (w : World X) :
  0 <= delay ->
  exists evs,
    timeline (snd (backoff fn retries delay w)) = (timeline w ++ evs)%list
    /\ total (waits evs) <= delay * (2 ^ Z.of_nat (Z.to_nat retries) - 1).
Proof.
  intros Hd.
  destruct (backoff_schedule_prefix fn (Z.to_nat retries) retries delay w eq_refl)
    as (k & x' & Hk & Hrun).
  exists (retry_schedule k retries delay). rewrite Hrun.
  split; [reflexivity |].
  rewrite waits_schedule. apply doubling_total_monotone; assumption.
Qed.

Lemma backoff_total_wait_bounded_witness :
  0 <= default_delay
  /\ exists evs,
       timeline (snd (backoff always_limited default_retries default_delay
                        (mkWorld 0%nat [] initial_ui)))
       = ([] ++ evs)%list
       /\ total (waits evs) <= 31000.
Proof.
  assert (Hd : 0 <= default_delay) by (unfold default_delay; lia).
  split; [exact Hd |].
  exact (backoff_total_wait_bounded always_limited default_retries default_delay
           (mkWorld 0%nat [] initial_ui) Hd).
Defined.

(** X3.  With no retries left (zero or a negative number) the helper is
    one call of the operation and nothing else: it ends as that call
    ends, whatever the error. *)
Theorem backoff_without_budget_is_one_call
    {X A : Type} (fn : Op X A) (retries delay : Z) (w : World X) :
  retries <= 0 ->
  backoff fn retries delay w = call fn w.
Proof.
  intros Hr.
  destruct (fn (outside w)) as [[v | e |] x'] eqn:Hcall;
    rewrite (call_eq _ _ _ _ Hcall).
  - apply backoff_resolved. exact Hcall.
  - apply backoff_gives_up; [exact Hcall | left; exact Hr].
  - apply backoff_pending. exact Hcall.
Qed.

Lemma backoff_without_budget_is_one_call_witness :
  -1 <= 0
  /\ backoff always_limited (-1) default_delay (mkWorld 0%nat [] initial_ui)
     = call always_limited (mkWorld 0%nat [] initial_ui).
Proof.
  assert (Hr : -1 <= 0) by lia.
  split; [exact Hr |].
  exact (backoff_without_budget_is_one_call always_limited (-1) default_delay
           (mkWorld 0%nat [] initial_ui) Hr).
Defined.

(** X4.  An operation rejected with status 429 k times and then with an
    error of another status, retried with [r >= k]: the helper stops at
    that error, after k retries, and is rejected with it; the retries
    left are not used. *)
Theorem backoff_stops_at_other_error
    {X A : Type} (fn : Op X A) (k : nat) (r delay : Z) (w : World X)
    (e : jsval) (x' : X) :
  fails_429_then_rejects fn k (outside w) e x' ->
  Z.of_nat k <= r ->
  backoff fn r delay w
  = (Rejected e, mkWorld x' (timeline w ++ retry_schedule k r delay) (ui w))
  /\ attempts (retry_schedule k r delay) = S k
  /\ waits (retry_schedule k r delay) = doubling delay k.
Proof.
  intros Hfn Hr. split; [| split].
  - apply (backoff_follows_schedule_to_rejection fn k (outside w)); trivial.
  - apply attempts_schedule.
  - apply waits_schedule.
Qed.

Lemma backoff_stops_at_other_error_witness :
  fails_429_then_rejects limited_then_denied 1 0%nat (VObj [("status", VNum 403)]) 2%nat
  /\ Z.of_nat 1 <= default_retries
  /\ backoff limited_then_denied default_retries default_delay
       (mkWorld 0%nat [] initial_ui)
     = (Rejected (VObj [("status", VNum 403)]),
        mkWorld 2%nat
          [Invoked; Timeout 1000;
           ConsoleLog "Reintentando llamada a la API... 5 reintentos restantes.";
           Invoked]
          initial_ui).
Proof.
  assert (H : fails_429_then_rejects limited_then_denied 1 0%nat
                (VObj [("status", VNum 403)]) 2%nat).
  { apply (limited_first limited_then_denied 0 0%nat (VObj [("status", VNum 429)]) 1%nat);
      [reflexivity | reflexivity |].
    apply (rejects_now limited_then_denied 1%nat (VObj [("status", VNum 403)])
             (VNum 403) 2%nat); [reflexivity | reflexivity | discriminate]. }
  assert (Hr : Z.of_nat 1 <= default_retries) by (unfold default_retries; lia).
  split; [exact H | split; [exact Hr |]].
  exact (proj1 (backoff_stops_at_other_error limited_then_denied 1 default_retries
                  default_delay (mkWorld 0%nat [] initial_ui)
                  (VObj [("status", VNum 403)]) 2%nat H Hr)).
Defined.

(** X5.  An operation rejected with [null] or [undefined] while retries
    are left: the promise of the helper never settles, neither resolved
    nor rejected, after the one call and with no timer started. *)
Theorem backoff_never_settles_on_bare_rejection
    {X A : Type} (fn : Op X A) (retries delay : Z) (w : World X)
    (e : jsval) (x' : X) :
  fn (outside w) = (Rejected e, x') ->
  e = VUndefined \/ e = VNull ->
  0 < retries ->
  backoff fn retries delay w
  = (Pending, mkWorld x' (timeline w ++ [Invoked]) (ui w)).
Proof.
  intros Hcall He Hr.
  apply (backoff_hangs fn retries delay w e x' Hcall Hr).
  destruct He as [-> | ->]; reflexivity.
Qed.

Lemma backoff_never_settles_on_bare_rejection_witness :
  rejecting_bare 0%nat = (Rejected VUndefined, 1%nat)
  /\ (VUndefined = VUndefined \/ VUndefined = VNull)
  /\ 0 < default_retries
  /\ backoff rejecting_bare default_retries default_delay (mkWorld 0%nat [] initial_ui)
     = (Pending, mkWorld 1%nat [Invoked] initial_ui).
Proof.
  assert (Hr : 0 < default_retries) by (unfold default_retries; lia).
  split; [reflexivity | split; [left; reflexivity | split; [exact Hr |]]].
  exact (backoff_never_settles_on_bare_rejection rejecting_bare default_retries
           default_delay (mkWorld 0%nat [] initial_ui) VUndefined 1%nat
           eq_refl (or_introl eq_refl) Hr).
Defined.

(* ===================================================================== *)
(** ** The generation flow: further behaviour *)
(* ===================================================================== *)

Lemma analyzeImage_of_string env b :
  analyzeImage_of env (VStr b) = analyzeImage env b.
Proof. reflexivity. Qed.

Lemma backoff_any_fetch_once env url method headers body retries delay
    (w : World Net) :
  backoff (fetch env url method headers body) retries delay w
  = call (fetch env url method headers body) w.
Proof.
  rewrite backoff_body.
  unfold call, perform, fetch. cbn [outside emit].
  destruct (endpoint env _ _) as [| st txt b]; [| reflexivity].
  destruct (0 <? retries); reflexivity.
Qed.

(** Every run of [analyzeImage_of] ends, and leaves [after_run]. *)
Lemma analyzeImage_of_run env data (w : World Net) :
  analyzeImage_of env data w = (Resolved tt, after_run env data w).
Proof.
  unfold after_run, analyzeImage_of, bind, try_catch, finally, generate_of, bind,
    step, perform, signInAnonymously, ret.
  cbn [outside setLoading setError].
  destruct (signIn_outcome env (signIns (outside w))) as [e |].
  - unfold finished, signed_in, auth_failure_events, console_error, emit,
      setLoading, setError.
    cbn [outside timeline ui image prompt loading error].
    rewrite <- !app_assoc. reflexivity.
  - unfold generation_request_of. rewrite backoff_any_fetch_once.
    unfold call, perform, fetch, emit, request_of, reply_outcome.
    cbn [outside timeline ui requests signIns].
    destruct (endpoint env _ _) as [| st txt body].
    + unfold finished, failure_events, console_error, emit, setLoading, setError.
      cbn [outside timeline ui image prompt loading error].
      rewrite <- !app_assoc. reflexivity.
    + cbn [ok status statusText parsed_body].
      destruct ((200 <=? st) && (st <=? 299)); cbn [negb].
      * unfold response_json. cbn [parsed_body].
        destruct body as [result |]; unfold ret, throw.
        -- unfold finished, success_events, emit, setLoading, setError, setPrompt.
           cbn [outside timeline ui image prompt loading error].
           rewrite <- !app_assoc. reflexivity.
        -- unfold finished, failure_events, console_error, emit, setLoading, setError.
           cbn [outside timeline ui image prompt loading error].
           rewrite <- !app_assoc. reflexivity.
      * unfold throw, finished, failure_events, api_error, console_error, emit,
          setLoading, setError.
        cbn [outside timeline ui image prompt loading error].
        rewrite <- !app_assoc. reflexivity.
Qed.

Lemma js_or_truthy a b : truthy a = true -> js_or a b = a.
Proof. unfold js_or. intros ->. reflexivity. Qed.

Lemma out_of_range st :
  st < 200 \/ 299 < st -> (200 <=? st) && (st <=? 299) = false.
Proof.
  intros [H | H].
  - apply andb_false_iff. left. apply Z.leb_gt. exact H.
  - apply andb_false_iff. right. apply Z.leb_gt. exact H.
Qed.

(** X6.  Sign-in works and the endpoint answers with a 2xx status and a
    body whose [candidates[0].content.parts[0].text] is a truthy value
    [t]: that value is set as the prompt and shown, no error is shown,
    and the spinner is off. *)
Theorem generated_text_is_shown
    (env : Env) (b : string) (w : World Net) (st : Z) (txt : string)
    (result t : jsval) :
  signIn_outcome env (signIns (outside w)) = None ->
  next_reply env b w = Http st txt (Some result) ->
  200 <= st <= 299 ->
  json_path result text_path = Some t ->
  truthy t = true ->
  fst (analyzeImage env b w) = Resolved tt
  /\ prompt (ui (snd (analyzeImage env b w))) = t
  /\ prompt_box (render (ui (snd (analyzeImage env b w)))) = Some t
  /\ error_box (render (ui (snd (analyzeImage env b w)))) = None
  /\ spinner (render (ui (snd (analyzeImage env b w)))) = false.
Proof.
  intros Hauth Hreply Hst Hthere Htruthy.
  assert (Hok : (200 <=? st) && (st <=? 299) = true).
  { apply andb_true_iff. split; apply Z.leb_le; lia. }
  rewrite (analyzeImage_success env b w st txt result Hauth Hreply Hok).
  rewrite (extract_text_present _ _ Hthere), (js_or_truthy _ _ Htruthy).
  cbn [fst snd]. rewrite render_finished. cbn [prompt_box error_box spinner].
  rewrite Htruthy. repeat split.
Qed.

Lemma generated_text_is_shown_witness :
  signIn_outcome
    (answering (Http 200 "OK" (Some (response_with_text (VStr "A studio-lit portrait...")))))
    (signIns (outside start)) = None
  /\ next_reply
       (answering (Http 200 "OK" (Some (response_with_text (VStr "A studio-lit portrait...")))))
       "QUJD" start
     = Http 200 "OK" (Some (response_with_text (VStr "A studio-lit portrait...")))
  /\ 200 <= 200 <= 299
  /\ json_path (response_with_text (VStr "A studio-lit portrait...")) text_path
     = Some (VStr "A studio-lit portrait...")
  /\ truthy (VStr "A studio-lit portrait...") = true
  /\ prompt_box
       (render
          (ui (snd (analyzeImage
                      (answering
                         (Http 200 "OK"
                            (Some (response_with_text (VStr "A studio-lit portrait...")))))
                      "QUJD" start))))
     = Some (VStr "A studio-lit portrait...").
Proof.
  assert (Hst : 200 <= 200 <= 299) by lia.
  split; [reflexivity | split; [reflexivity | split; [exact Hst |]]].
  split; [reflexivity | split; [reflexivity |]].
  exact (proj1 (proj2 (proj2
           (generated_text_is_shown
              (answering
                 (Http 200 "OK" (Some (response_with_text (VStr "A studio-lit portrait...")))))
              "QUJD" start 200 "OK"
              (response_with_text (VStr "A studio-lit portrait..."))
              (VStr "A studio-lit portrait...")
              eq_refl eq_refl Hst eq_refl eq_refl)))).
Defined.

(** X7.  Whatever the identity provider and the endpoint do, a run of the
    flow signs in once, calls the endpoint at most once and never starts
    a timer: no reply of the endpoint makes the flow retry. *)
Theorem analyzeImage_never_retries (env : Env) (b : string) (w : World Net) :
  exists evs,
    timeline (snd (analyzeImage env b w)) = (timeline w ++ evs)%list
    /\ waits evs = []
    /\ (attempts evs <= 1)%nat
    /\ signIns (outside (snd (analyzeImage env b w))) = S (signIns (outside w))
    /\ (requests (outside (snd (analyzeImage env b w))) = requests (outside w)
        \/ requests (outside (snd (analyzeImage env b w)))
           = (requests (outside w) ++ [the_request b])%list).
Proof.
  destruct (analyzeImage_runs env b w) as (net & evs & p & msg & Heq & Hrun).
  exists evs. rewrite Heq. cbn [snd].
  destruct Hrun; cbn; repeat split; auto.
Qed.

(** X8.  Sign-in works and the endpoint answers with a status outside
    200..299, whatever its body: the generic failure message is shown,
    the error logged is [API error: <status> <statusText>], the prompt is
    left as it was, and the one request is not repeated. *)
Theorem bad_status_shows_generic_error
    (env : Env) (b : string) (w : World Net) (st : Z) (txt : string)
    (body : option jsval) :
  signIn_outcome env (signIns (outside w)) = None ->
  next_reply env b w = Http st txt body ->
  st < 200 \/ 299 < st ->
  exists evs,
    analyzeImage env b w
    = (Resolved tt,
       mkWorld (requested b w) (timeline w ++ evs)
         (mkUI (image (ui w)) (prompt (ui w)) false generic_error_message))
    /\ error_box (render (ui (snd (analyzeImage env b w)))) = Some generic_error_message
    /\ console_errors evs
       = [("Error al analizar la imagen:",
           js_error "Error" ("API error: " ++ string_of_Z st ++ " " ++ txt))]
    /\ attempts evs = 1%nat
    /\ waits evs = [].
Proof.
  intros Hauth Hreply Hst.
  exists (failure_events (api_error st txt)).
  rewrite (analyzeImage_bad_status env b w st txt body Hauth Hreply (out_of_range st Hst)).
  repeat split.
Qed.

Lemma bad_status_shows_generic_error_witness :
  signIn_outcome (answering (Http 500 "Internal Server Error" None))
    (signIns (outside start)) = None
  /\ next_reply (answering (Http 500 "Internal Server Error" None)) "QUJD" start
     = Http 500 "Internal Server Error" None
  /\ (500 < 200 \/ 299 < 500)
  /\ error_box
       (render (ui (snd (analyzeImage (answering (Http 500 "Internal Server Error" None))
                           "QUJD" start))))
     = Some generic_error_message.
Proof.
  assert (Hst : 500 < 200 \/ 299 < 500) by (right; lia).
  split; [reflexivity | split; [reflexivity | split; [exact Hst |]]].
  destruct (bad_status_shows_generic_error
              (answering (Http 500 "Internal Server Error" None)) "QUJD" start
              500 "Internal Server Error" None eq_refl eq_refl Hst)
    as (evs & _ & Hbox & _).
  exact Hbox.
Defined.

(** X9.  Sign-in works and the endpoint answers with a 2xx status and a
    body that is not JSON: [response.json()] is rejected, and the generic
    failure message is shown, not the fallback prompt; the prompt is left
    as it was. *)
Theorem unparsable_body_shows_generic_error
    (env : Env) (b : string) (w : World Net) (st : Z) (txt : string) :
  signIn_outcome env (signIns (outside w)) = None ->
  next_reply env b w = Http st txt None ->
  200 <= st <= 299 ->
  fst (analyzeImage env b w) = Resolved tt
  /\ error_box (render (ui (snd (analyzeImage env b w)))) = Some generic_error_message
  /\ prompt (ui (snd (analyzeImage env b w))) = prompt (ui w)
  /\ loading (ui (snd (analyzeImage env b w))) = false.
Proof.
  intros Hauth Hreply Hst.
  assert (Hok : (200 <=? st) && (st <=? 299) = true).
  { apply andb_true_iff. split; apply Z.leb_le; lia. }
  rewrite (analyzeImage_not_json env b w st txt Hauth Hreply Hok).
  repeat split.
Qed.

Lemma unparsable_body_shows_generic_error_witness :
  signIn_outcome (answering (Http 204 "No Content" None)) (signIns (outside start)) = None
  /\ next_reply (answering (Http 204 "No Content" None)) "QUJD" start
     = Http 204 "No Content" None
  /\ 200 <= 204 <= 299
  /\ error_box
       (render (ui (snd (analyzeImage (answering (Http 204 "No Content" None))
                           "QUJD" start))))
     = Some generic_error_message.
Proof.
  assert (Hst : 200 <= 204 <= 299) by lia.
  split; [reflexivity | split; [reflexivity | split; [exact Hst |]]].
  exact (proj1 (proj2
           (unparsable_body_shows_generic_error
              (answering (Http 204 "No Content" None)) "QUJD" start 204 "No Content"
              eq_refl eq_refl Hst))).
Defined.

(** X10.  Sign-in works and no response arrives ([fetch] is rejected):
    the generic failure message is shown after the one attempt, with no
    wait and no second request. *)
Theorem network_failure_shows_generic_error
    (env : Env) (b : string) (w : World Net) :
  signIn_outcome env (signIns (outside w)) = None ->
  next_reply env b w = NetworkError ->
  exists evs,
    analyzeImage env b w
    = (Resolved tt,
       mkWorld (requested b w) (timeline w ++ evs)
         (mkUI (image (ui w)) (prompt (ui w)) false generic_error_message))
    /\ error_box (render (ui (snd (analyzeImage env b w)))) = Some generic_error_message
    /\ attempts evs = 1%nat
    /\ waits evs = [].
Proof.
  intros Hauth Hreply.
  exists (failure_events (js_error "TypeError" "Failed to fetch")).
  rewrite (analyzeImage_network_error env b w Hauth Hreply).
  repeat split.
Qed.

Lemma network_failure_shows_generic_error_witness :
  signIn_outcome (answering NetworkError) (signIns (outside start)) = None
  /\ next_reply (answering NetworkError) "QUJD" start = NetworkError
  /\ error_box (render (ui (snd (analyzeImage (answering NetworkError) "QUJD" start))))
     = Some generic_error_message.
Proof.
  split; [reflexivity | split; [reflexivity |]].
  destruct (network_failure_shows_generic_error (answering NetworkError) "QUJD" start
              eq_refl eq_refl)
    as (evs & _ & Hbox & _).
  exact Hbox.
Defined.

(** X11.  Nothing is kept from one run to the next: when the sign-in of
    each of two runs in a row works, the endpoint receives the same
    request twice. *)
Theorem two_runs_send_two_requests (env : Env) (b : string) (w : World Net) :
  signIn_outcome env (signIns (outside w)) = None ->
  signIn_outcome env (S (signIns (outside w))) = None ->
  requests (outside (snd (bind (analyzeImage env b) (fun _ => analyzeImage env b) w)))
  = (requests (outside w) ++ [the_request b; the_request b])%list.
Proof.
  intros Hfirst Hsecond. unfold bind.
  rewrite <- !analyzeImage_of_string, !analyzeImage_of_run.
  unfold after_run at 2. rewrite Hfirst.
  assert (Hnet : forall evs p msg,
            requests (outside (after_run env (VStr b)
                                 (finished w
                                    (mkNet (S (signIns (outside w)))
                                       (requests (outside w) ++ [request_of (VStr b)]))
                                    evs p msg)))
            = (requests (outside w) ++ [the_request b; the_request b])%list).
  { intros evs p msg. unfold after_run. cbn [finished outside signIns requests].
    rewrite Hsecond.
    destruct (reply_outcome _); cbn [finished outside requests];
      rewrite <- app_assoc; reflexivity. }
  destruct (reply_outcome _); cbn [snd]; apply Hnet.
Qed.

Lemma two_runs_send_two_requests_witness :
  signIn_outcome (answering NetworkError) (signIns (outside start)) = None
  /\ signIn_outcome (answering NetworkError) (S (signIns (outside start))) = None
  /\ requests
       (outside (snd (bind (analyzeImage (answering NetworkError) "QUJD")
                        (fun _ => analyzeImage (answering NetworkError) "QUJD") start)))
     = (requests (outside start) ++ [the_request "QUJD"; the_request "QUJD"])%list.
Proof.
  split; [reflexivity | split; [reflexivity |]].
  exact (two_runs_send_two_requests (answering NetworkError) "QUJD" start
           eq_refl eq_refl).
Defined.

(* ===================================================================== *)
(** ** The file handler: behaviour *)
(* ===================================================================== *)

Lemma split_comma_free s : comma_free s = true -> split "," s = [s].
Proof.
  induction s as [| c rest IH]; simpl; [reflexivity |].
  intros H. apply andb_true_iff in H. destruct H as [Hc Hrest].
  apply negb_true_iff in Hc. rewrite Hc, (IH Hrest). reflexivity.
Qed.

Lemma split_header header data :
  comma_free header = true ->
  split "," (header ++ "," ++ data) = header :: split "," data.
Proof.
  induction header as [| c rest IH]; simpl; [reflexivity |].
  intros H. apply andb_true_iff in H. destruct H as [Hc Hrest].
  apply negb_true_iff in Hc. rewrite Hc. simpl in IH. rewrite (IH Hrest).
  reflexivity.
Qed.

Lemma fileToBase64_data_url f header data :
  read_outcome f = ReadLoads (header ++ "," ++ data) ->
  comma_free header = true -> comma_free data = true ->
  fileToBase64 f = Resolved (VStr data).
Proof.
  intros Hread Hh Hd. unfold fileToBase64. rewrite Hread.
  rewrite (split_header _ _ Hh), (split_comma_free _ Hd). reflexivity.
Qed.

Lemma fileToBase64_no_comma f result :
  read_outcome f = ReadLoads result -> comma_free result = true ->
  fileToBase64 f = Resolved VUndefined.
Proof.
  intros Hread Hfree. unfold fileToBase64. rewrite Hread.
  rewrite (split_comma_free _ Hfree). reflexivity.
Qed.

(** After setting the image and clearing the prompt, the handler is the
    analysis of what [fileToBase64] resolved with. *)
Lemma handleImageChange_loaded env f data (w : World Net) :
  fileToBase64 f = Resolved data ->
  handleImageChange env (Some f) w
  = analyzeImage_of env data
      (setPrompt (VStr "") (setImage (VStr (object_url f)) w)).
Proof.
  intros Hdata. unfold handleImageChange, bind, step, settle.
  rewrite Hdata. reflexivity.
Qed.

Lemma fileToBase64_loads f result :
  read_outcome f = ReadLoads result -> exists data, fileToBase64 f = Resolved data.
Proof.
  intros Hread. unfold fileToBase64. rewrite Hread. eexists. reflexivity.
Qed.

(** X12.  When the reader's result is a header without comma, a comma and
    data without comma (a base64 data URL), [fileToBase64] is resolved
    with exactly the data: what follows the header's comma comes back
    unchanged. *)
Theorem fileToBase64_gives_the_data_part (f : File) (header data : string) :
  read_outcome f = ReadLoads (header ++ "," ++ data) ->
  comma_free header = true ->
  comma_free data = true ->
  fileToBase64 f = Resolved (VStr data).
Proof.
  intros Hread Hheader Hdata. unfold fileToBase64. rewrite Hread.
  rewrite (split_header header data Hheader).
  rewrite (split_comma_free data Hdata).
  reflexivity.
Qed.

Lemma fileToBase64_gives_the_data_part_witness :
  read_outcome small_png = ReadLoads ("data:image/png;base64" ++ "," ++ "QUJD")
  /\ comma_free "data:image/png;base64" = true
  /\ comma_free "QUJD" = true
  /\ fileToBase64 small_png = Resolved (VStr "QUJD").
Proof.
  split; [reflexivity | split; [reflexivity | split; [reflexivity |]]].
  exact (fileToBase64_gives_the_data_part small_png "data:image/png;base64" "QUJD"
           eq_refl eq_refl eq_refl).
Defined.

(** X13.  When the reader's result has no comma at all (the [data:] some
    browsers give for an empty file, or the empty string), [fileToBase64]
    is not rejected: it is resolved with [undefined]. *)
Theorem fileToBase64_without_comma_is_undefined (f : File) (result : string) :
  read_outcome f = ReadLoads result ->
  comma_free result = true ->
  fileToBase64 f = Resolved VUndefined.
Proof.
  intros Hread Hfree. unfold fileToBase64. rewrite Hread.
  rewrite (split_comma_free result Hfree).
  reflexivity.
Qed.

Lemma fileToBase64_without_comma_is_undefined_witness :
  read_outcome empty_file = ReadLoads "data:"
  /\ comma_free "data:" = true
  /\ fileToBase64 empty_file = Resolved VUndefined.
Proof.
  split; [reflexivity | split; [reflexivity |]].
  exact (fileToBase64_without_comma_is_undefined empty_file "data:" eq_refl eq_refl).
Defined.

(** X14.  When reading the picked file fails, the handler is rejected
    with the reader's error after setting the image and clearing the
    prompt, and that is all: the analysis never starts, so nobody signs
    in, no request is sent, the spinner and the error message stay as
    they were, and no error message is set for the failure. *)
Theorem read_failure_stops_the_handler
    (env : Env) (f : File) (e : jsval) (w : World Net) :
  read_outcome f = ReadFails e ->
  fst (handleImageChange env (Some f) w) = Rejected e
  /\ outside (snd (handleImageChange env (Some f) w)) = outside w
  /\ timeline (snd (handleImageChange env (Some f) w))
     = (timeline w ++ [SetPrompt (VStr "")])%list
  /\ image (ui (snd (handleImageChange env (Some f) w))) = VStr (object_url f)
  /\ prompt (ui (snd (handleImageChange env (Some f) w))) = VStr ""
  /\ loading (ui (snd (handleImageChange env (Some f) w))) = loading (ui w)
  /\ error (ui (snd (handleImageChange env (Some f) w))) = error (ui w).
Proof.
  intros Hread.
  unfold handleImageChange, bind, step, settle, fileToBase64.
  rewrite Hread. repeat split.
Qed.

Lemma read_failure_stops_the_handler_witness :
  read_outcome unreadable
  = ReadFails (js_error "NotReadableError" "The file could not be read")
  /\ fst (handleImageChange (answering NetworkError) (Some unreadable) used)
     = Rejected (js_error "NotReadableError" "The file could not be read")
  /\ outside (snd (handleImageChange (answering NetworkError) (Some unreadable) used))
     = outside used.
Proof.
  split; [reflexivity |].
  pose proof (read_failure_stops_the_handler (answering NetworkError) unreadable
                (js_error "NotReadableError" "The file could not be read") used
                eq_refl) as H.
  exact (conj (proj1 H) (proj1 (proj2 H))).
Defined.

(** X15.  When the reader's result is a data URL (header without comma,
    comma, data without comma), handling the file is: set the image to
    the file's object URL, clear the prompt, then run [analyzeImage] on
    exactly the data. *)
Theorem handler_analyses_the_data_part
    (env : Env) (f : File) (header data : string) (w : World Net) :
  read_outcome f = ReadLoads (header ++ "," ++ data) ->
  comma_free header = true ->
  comma_free data = true ->
  handleImageChange env (Some f) w
  = analyzeImage env data
      (setPrompt (VStr "") (setImage (VStr (object_url f)) w)).
Proof.
  intros Hread Hh Hd.
  rewrite (handleImageChange_loaded env f (VStr data) w
             (fileToBase64_data_url f header data Hread Hh Hd)).
  rewrite analyzeImage_of_string. reflexivity.
Qed.

Lemma handler_analyses_the_data_part_witness :
  read_outcome small_png = ReadLoads ("data:image/png;base64" ++ "," ++ "QUJD")
  /\ comma_free "data:image/png;base64" = true
  /\ comma_free "QUJD" = true
  /\ handleImageChange (answering NetworkError) (Some small_png) used
     = analyzeImage (answering NetworkError) "QUJD"
         (setPrompt (VStr "") (setImage (VStr (object_url small_png)) used)).
Proof.
  split; [reflexivity | split; [reflexivity | split; [reflexivity |]]].
  exact (handler_analyses_the_data_part (answering NetworkError) small_png
           "data:image/png;base64" "QUJD" used eq_refl eq_refl eq_refl).
Defined.

(** X17.  When the reader's result has no comma and sign-in works, the
    handler does not stop: it sends the endpoint one request whose
    [inlineData.data] is [undefined]. *)
Theorem comma_less_result_sends_undefined_data
    (env : Env) (f : File) (result : string) (w : World Net) :
  read_outcome f = ReadLoads result ->
  comma_free result = true ->
  signIn_outcome env (signIns (outside w)) = None ->
  requests (outside (snd (handleImageChange env (Some f) w)))
  = (requests (outside w) ++ [request_of VUndefined])%list
  /\ json_path (req_body (request_of VUndefined))
       [KName "contents"; KIndex 0; KName "parts"; KIndex 1; KName "inlineData";
        KName "data"]
     = Some VUndefined.
Proof.
  intros Hread Hfree Hauth. split; [| reflexivity].
  rewrite (handleImageChange_loaded env f VUndefined w
             (fileToBase64_no_comma f result Hread Hfree)).
  rewrite analyzeImage_of_run. cbn [snd]. unfold after_run.
  cbn [setPrompt setImage outside ui prompt image]. rewrite Hauth.
  destruct (reply_outcome _); reflexivity.
Qed.

Lemma comma_less_result_sends_undefined_data_witness :
  read_outcome empty_file = ReadLoads "data:"
  /\ comma_free "data:" = true
  /\ signIn_outcome (answering NetworkError) (signIns (outside start)) = None
  /\ requests (outside (snd (handleImageChange (answering NetworkError)
                               (Some empty_file) start)))
     = (requests (outside start) ++ [request_of VUndefined])%list.
Proof.
  split; [reflexivity | split; [reflexivity | split; [reflexivity |]]].
  exact (proj1 (comma_less_result_sends_undefined_data (answering NetworkError)
                  empty_file "data:" start eq_refl eq_refl eq_refl)).
Defined.

(* ===================================================================== *)
(** ** Clipboard copy: further behaviour *)
(* ===================================================================== *)

(** Every copy ends, with one alert, the textareas as they were, and the
    clipboard holding the prompt as a string when the primary mechanism
    works or the copy command returns [true]. *)
Lemma copyPromptToClipboard_runs br (w : World Board) :
  exists evs,
    copyPromptToClipboard br w
    = (Resolved tt,
       mkWorld
         (mkBoard
            (if primary_fails br
             then match execCommand_outcome br with
                  | ExecReturns true => Some (textarea_value (prompt (ui w)))
                  | _ => clipboard (outside w)
                  end
             else Some (js_to_string (prompt (ui w))))
            (textareas (outside w)))
         (timeline w ++ evs) (ui w))
    /\ alerts evs
       = [if primary_fails br && fallback_throws br
          then copy_failure_message else copy_success_message].
Proof.
  destruct w as [board tl u].
  unfold copyPromptToClipboard, primary_fails.
  destruct (has_writeText br) eqn:Hhas; cbn [negb orb andb ui prompt outside].
  - unfold try_catch, bind, perform, writeText, step, alert, emit.
    destruct (writeText_outcome br) as [e |] eqn:Hwrite.
    + cbn [outside timeline ui].
      destruct (copyToClipboardFallback_runs br (prompt u)
                  (console_error "Error al usar navigator.clipboard:" e
                     (mkWorld board tl u)))
        as (evs & Hrun & Halerts).
      rewrite Hrun. unfold console_error, emit.
      cbn [outside timeline ui clipboard textareas]. rewrite <- app_assoc.
      eexists. split; [reflexivity |].
      rewrite alerts_cons_other by reflexivity. exact Halerts.
    + cbn [outside timeline ui clipboard textareas].
      eexists. split; reflexivity.
  - destruct (copyToClipboardFallback_runs br (prompt u) (mkWorld board tl u))
      as (evs & Hrun & Halerts).
    rewrite Hrun. cbn [outside timeline ui clipboard textareas].
    exists evs. split; [reflexivity | exact Halerts].
Qed.

(** X18.  When the primary mechanism is missing or rejected and the copy
    command returns [false] without throwing, the success confirmation
    is shown although nothing was copied: the clipboard is as it was. *)
Theorem copy_confirms_though_nothing_copied (br : Browser) (w : World Board) :
  primary_fails br = true ->
  execCommand_outcome br = ExecReturns false ->
  exists evs,
    timeline (snd (copyPromptToClipboard br w)) = (timeline w ++ evs)%list
    /\ alerts evs = [copy_success_message]
    /\ clipboard (outside (snd (copyPromptToClipboard br w))) = clipboard (outside w).
Proof.
  intros Hprimary Hexec.
  destruct (copyPromptToClipboard_runs br w) as (evs & Hrun & Halerts).
  exists evs. rewrite Hrun. cbn [snd timeline outside clipboard].
  rewrite Halerts. unfold fallback_throws. rewrite Hprimary, Hexec.
  repeat split.
Qed.

Lemma copy_confirms_though_nothing_copied_witness :
  primary_fails old_browser = true
  /\ execCommand_outcome old_browser = ExecReturns false
  /\ exists evs,
       timeline (snd (copyPromptToClipboard old_browser
                        (mkWorld (mkBoard (Some "earlier") []) []
                           (mkUI VNull (VStr "A prompt") false ""))))
       = ([] ++ evs)%list
       /\ alerts evs = [copy_success_message]
       /\ clipboard
            (outside (snd (copyPromptToClipboard old_browser
                             (mkWorld (mkBoard (Some "earlier") []) []
                                (mkUI VNull (VStr "A prompt") false "")))))
          = Some "earlier".
Proof.
  split; [reflexivity | split; [reflexivity |]].
  exact (copy_confirms_though_nothing_copied old_browser
           (mkWorld (mkBoard (Some "earlier") []) []
              (mkUI VNull (VStr "A prompt") false ""))
           eq_refl eq_refl).
Defined.


(* ===================================================================== *)
(** ** The optional chain: further behaviour *)
(* ===================================================================== *)

(** X20.  On every value the optional chain of line 115 agrees with plain
    member lookup along [candidates[0].content.parts[0].text]: it is the
    member when the whole path exists and [undefined] when any step is
    missing, and it never throws. *)
Theorem extract_text_follows_json_path (result : jsval) :
  extract_text result
  = match json_path result text_path with
    | Some t => t
    | None => VUndefined
    end.
Proof.
  destruct (json_path result text_path) as [t |] eqn:Hpath.
  - apply extract_text_present. exact Hpath.
  - apply extract_text_absent. exact Hpath.
Qed.

(** X21.  Only the first part of the first candidate is read: whatever
    other candidates, other parts and other properties the response has,
    the text extracted is the [text] of [candidates[0].content.parts[0]]. *)
Theorem extract_text_reads_first_part_only
    (result c p : jsval) (cs ps : list jsval) :
  json_member result (KName "candidates") = Some (VArr (c :: cs)) ->
  json_path c [KName "content"; KName "parts"] = Some (VArr (p :: ps)) ->
  extract_text result = opt_get p (KName "text").
Proof.
  intros Hcands Hparts. unfold extract_text.
  rewrite (opt_get_member _ _ _ Hcands).
  change (opt_get (VArr (c :: cs)) (KIndex 0)) with c.
  change (opt_get (opt_get c (KName "content")) (KName "parts"))
    with (fold_left opt_get [KName "content"; KName "parts"] c).
  rewrite (json_path_found _ _ _ Hparts). reflexivity.
Qed.

Lemma extract_text_reads_first_part_only_witness :
  json_member two_part_response (KName "candidates")
  = Some (VArr (first_candidate :: [other_candidate]))
  /\ json_path first_candidate [KName "content"; KName "parts"]
     = Some (VArr (VObj [("text", VStr "first")] :: [VObj [("text", VStr "second")]]))
  /\ extract_text two_part_response
     = opt_get (VObj [("text", VStr "first")]) (KName "text").
Proof.
  split; [reflexivity | split; [reflexivity |]].
  exact (extract_text_reads_first_part_only two_part_response first_candidate
           (VObj [("text", VStr "first")]) [other_candidate]
           [VObj [("text", VStr "second")]] eq_refl eq_refl).
Defined.
